(** * kubebuilder-helm scaffolding templates: a shallow embedding

    The development follows the Go sources of the plugin:
    - [templates]: [Main] and [MainUpdater] (the manager entry point and the
      injector that wires resources, controllers and webhooks into it);
    - [api]: the [Types] template of a CRD schema file;
    - [charts]: the [HelmIgnore] template;
    - [scaffolds]: the [webhookScaffolder].

    The Go standard library and the kubebuilder [machinery] and [resource]
    packages are imported by the plugin; the parts the plugin calls are
    modelled first. *)

From Stdlib Require Import Ascii String.
From stdpp Require Import base option list strings countable gmap.

(** ** Text helpers for Go string literals *)

(** The double quote, the line feed and the tab. *)
Definition dq : string := String "034"%char EmptyString.
Definition nl : string := String "010"%char EmptyString.
Definition tab : string := String "009"%char EmptyString.

(** A double-quoted word inside a Go raw string literal. *)
Definition Q (s : string) : string := dq +:+ s +:+ dq.

(** A Go raw string literal whose lines all end in a line feed. *)
Definition raw (ls : list string) : string :=
  foldr (fun l acc => l +:+ nl +:+ acc) "" ls.

(** ** Panics

    A Go call either returns or panics (nil dereference, or an explicit
    [panic]); [Panics] carries a description of the cause. *)
Inductive outcome (A : Type) : Type :=
  | Returns (a : A)
  | Panics (msg : string).
Arguments Returns {A} a.
Arguments Panics {A} msg.

#[global] Instance outcome_ret : MRet outcome := fun _ a => Returns a.

#[global] Instance outcome_bind : MBind outcome := fun _ _ k m =>
  match m with
  | Returns a => k a
  | Panics msg => Panics msg
  end.

Definition returns {A} (m : outcome A) : bool :=
  match m with Returns _ => true | Panics _ => false end.

(** ** Go errors

    An error value has a message and, when it was built with the [%w] verb,
    the error it wraps ([errors.Unwrap]). The Go [error] interface value is
    [option Err], with [None] for [nil]. *)
#[warnings="-register-all"]
Inductive Err : Type :=
  | mkErr (msg : string) (wrapped : option Err).

Definition error : Type := option Err.

Definition Err_Error (e : Err) : string :=
  match e with mkErr msg _ => msg end.

Definition Unwrap (e : Err) : error :=
  match e with mkErr _ w => w end.

(** ** Package [strings] *)
Module gostrings.

(** [strings.HasPrefix] *)
Fixpoint HasPrefix (s prefix : string) : bool :=
  match prefix with
  | EmptyString => true
  | String p prefix' =>
      match s with
      | EmptyString => false
      | String c s' => if Ascii.eqb c p then HasPrefix s' prefix' else false
      end
  end.

(** [strings.Join] *)
Fixpoint Join (elems : list string) (sep : string) : string :=
  match elems with
  | [] => ""
  | [e] => e
  | e :: rest => e +:+ sep +:+ Join rest sep
  end.

(** [strings.ToLower], on the ASCII letters. (Go also maps the letters of
    other scripts; such bytes are unchanged here.) *)
Definition lower_ascii (c : ascii) : ascii :=
  let n := nat_of_ascii c in
  if (65 <=? n)%nat && (n <=? 90)%nat then ascii_of_nat (n + 32) else c.

Fixpoint ToLower (s : string) : string :=
  match s with
  | EmptyString => EmptyString
  | String c s' => String (lower_ascii c) (ToLower s')
  end.

(** *** [strings.Replacer], the generic algorithm

    [NewReplacer(old1, new1, old2, new2, ...)] is the list of pairs. At
    each position of the input, the first pair in argument order whose
    [old] is a prefix of what remains is taken: [new] is written and the
    scan resumes after [old], so that replaced text is never scanned
    again. Where no pair matches the byte is copied. The model covers
    non-empty [old] strings, which is all the plugin uses. *)
Definition Replacer : Type := list (string * string).

Fixpoint lookup (r : Replacer) (s : string) : option (string * string) :=
  match r with
  | [] => None
  | (old, new) :: r' =>
      if HasPrefix s old then Some (old, new) else lookup r' s
  end.

(** [skip] counts the bytes of a matched [old] still to be passed over. *)
Fixpoint replace_from (r : Replacer) (skip : nat) (s : string) : string :=
  match s with
  | EmptyString => EmptyString
  | String c s' =>
      match skip with
      | S k => replace_from r k s'
      | O =>
          match lookup r s with
          | Some (old, new) =>
              new +:+ replace_from r (String.length old - 1) s'
          | None => String c (replace_from r 0 s')
          end
      end
  end.

Definition Replace (r : Replacer) (s : string) : string :=
  replace_from r 0 s.

(** [strings.ReplaceAll(s, old, new)]: every non-overlapping instance of
    [old], left to right. With an empty [old] Go inserts [new] before each
    character and at the end. *)
Fixpoint intersperse_all (new s : string) : string :=
  match s with
  | EmptyString => new
  | String c s' => new +:+ String c (intersperse_all new s')
  end.

Definition ReplaceAll (s old new : string) : string :=
  match old with
  | EmptyString => intersperse_all new s
  | String _ _ => replace_from [(old, new)] 0 s
  end.

(** Number of positions of [s] at which [sub] starts. *)
Fixpoint occurrences (sub s : string) : nat :=
  match s with
  | EmptyString => if HasPrefix s sub then 1 else 0
  | String _ s' => (if HasPrefix s sub then 1 else 0) + occurrences sub s'
  end.

End gostrings.

(** ** Package [fmt] *)
Module fmt.

(** What [Sprintf] appends for operands no verb consumed. *)
Definition extra (a : list string) : string :=
  match a with
  | [] => ""
  | _ => "%!(EXTRA " +:+ gostrings.Join (map (fun x => "string=" +:+ x) a) ", " +:+ ")"
  end.

(** [fmt.Sprintf] for the verbs the plugin's format strings contain: [%s]
    (and [%%]), with string operands. A [fmt.Stringer] operand is passed
    as its [String()] text. *)
Fixpoint Sprintf (format : string) (a : list string) : string :=
  match format with
  | EmptyString => extra a
  | String "%" (String "s" rest) =>
      match a with
      | x :: a' => x +:+ Sprintf rest a'
      | [] => "%!s(MISSING)" +:+ Sprintf rest []
      end
  | String "%" (String "%" rest) => String "%" (Sprintf rest a)
  | String c rest => String c (Sprintf rest a)
  end.

(** The verbs of a format string, in order. *)
Fixpoint verbs (format : string) : list ascii :=
  match format with
  | EmptyString => []
  | String "%" (String "%" rest) => verbs rest
  | String "%" (String c rest) => c :: verbs rest
  | String _ rest => verbs rest
  end.

(** [Errorf] with a format ending in [: %w] or [: %v]: the message is the
    same, only [%w] records the operand as the wrapped error. *)
Definition Errorf_w (text : string) (err : Err) : Err :=
  mkErr (text +:+ Err_Error err) (Some err).

Definition Errorf_v (text : string) (err : Err) : Err :=
  mkErr (text +:+ Err_Error err) None.

End fmt.

(** ** Package [path/filepath] (Unix) *)
Module filepath.

Definition is_sep (c : ascii) : bool := Ascii.eqb c "/".

(** [filepath.Ext]: the suffix from the last dot of the last element.
    [cur] is the suffix at the last dot seen since the last separator. *)
Fixpoint Ext_from (cur path : string) : string :=
  match path with
  | EmptyString => cur
  | String c rest =>
      if is_sep c then Ext_from "" rest
      else if Ascii.eqb c "." then Ext_from path rest
      else Ext_from cur rest
  end.

Definition Ext (path : string) : string := Ext_from "" path.

(** The elements of a path between separators. *)
Fixpoint elements (path : string) : list string :=
  match path with
  | EmptyString => [""]
  | String c rest =>
      if is_sep c then "" :: elements rest
      else match elements rest with
           | e :: es => String c e :: es
           | [] => [String c ""]
           end
  end.

(** One element of [Clean]'s scan; [out] holds the elements written so
    far, last first. *)
Definition clean_step (rooted : bool) (out : list string) (e : string)
  : list string :=
  if String.eqb e "" then out
  else if String.eqb e "." then out
  else if String.eqb e ".." then
    match out with
    | top :: below => if String.eqb top ".." then e :: out else below
    | [] => if rooted then [] else [e]
    end
  else e :: out.

(** [filepath.Clean]: empty and [.] elements dropped, [..] cancelling the
    element before it, the empty result written [.]. *)
Definition Clean (path : string) : string :=
  if String.eqb path "" then "."
  else
    let rooted := gostrings.HasPrefix path "/" in
    let out := fold_left (clean_step rooted) (elements path) [] in
    let body := gostrings.Join (rev out) "/" in
    if rooted then "/" +:+ body
    else if String.eqb body "" then "." else body.

(** [filepath.Join]: leading empty elements are ignored, the rest joined
    by the separator and cleaned. *)
Fixpoint Join (elem : list string) : string :=
  match elem with
  | [] => ""
  | e :: rest =>
      if String.eqb e "" then Join rest
      else Clean (gostrings.Join elem "/")
  end.

End filepath.

(** ** Package [machinery] of kubebuilder v3

    The plugin imports [sigs.k8s.io/kubebuilder/v3/pkg/machinery]; the
    definitions follow that package's [marker.go] and [mixins.go]. *)
Module machinery.

(** The three existence policies, in the order of their [iota] values. *)
Inductive IfExistsAction : Type :=
  | SkipFile
  | Error
  | OverwriteFile.

(** A marker is the comment prefix of its file type and its name. *)
Record Marker : Type := mkMarker { comment : string; value : string }.

#[global] Instance Marker_eq_dec : EqDecision Marker.
Proof. solve_decision. Defined.

#[global] Instance Marker_countable : Countable Marker :=
  inj_countable'
    (fun m => (comment m, value m))
    (fun p => mkMarker p.1 p.2)
    (fun m => match m with mkMarker _ _ => eq_refl end).

Definition prefix : string := "+kubebuilder:scaffold:".

Definition commentsByExt (ext : string) : option string :=
  if String.eqb ext ".go" then Some "//"
  else if String.eqb ext ".yaml" then Some "#"
  else if String.eqb ext ".yml" then Some "#"
  else None.

(** [NewMarkerFor] panics on a file extension it has no comment for. *)
Definition NewMarkerFor (path value : string) : outcome Marker :=
  let ext := filepath.Ext path in
  match commentsByExt ext with
  | Some comment => Returns (mkMarker comment value)
  | None => Panics ("unknown file extension: '" +:+ ext +:+ "'")
  end.

(** [Marker.String]: the sentinel line written into the file. *)
Definition Marker_String (m : Marker) : string :=
  comment m +:+ prefix +:+ value m.

Abbreviation CodeFragments := (list string).

Abbreviation CodeFragmentsMap := (gmap Marker CodeFragments).

(** [TemplateMixin]: the path and existence policy of a template and its
    body. *)
Record TemplateMixin : Type := mkTemplateMixin {
  Path : string;
  IfExistsAction_ : IfExistsAction;
  TemplateBody : string
}.

Definition set_Path (p : string) (m : TemplateMixin) : TemplateMixin :=
  mkTemplateMixin p (IfExistsAction_ m) (TemplateBody m).

Definition set_IfExistsAction (a : IfExistsAction) (m : TemplateMixin)
  : TemplateMixin :=
  mkTemplateMixin (Path m) a (TemplateBody m).

Definition set_TemplateBody (b : string) (m : TemplateMixin) : TemplateMixin :=
  mkTemplateMixin (Path m) (IfExistsAction_ m) b.

(** The zero value of the struct. *)
Definition TemplateMixin_zero : TemplateMixin := mkTemplateMixin "" SkipFile "".

End machinery.

(** ** Package [resource] of kubebuilder v3

    The methods of [sigs.k8s.io/kubebuilder/v3/pkg/model/resource] the
    templates call on their resource. *)
Module resource.

(** The group-version-kind of a resource, its plural and the import path
    of its API package. *)
Record Resource : Type := mkResource {
  Group : string;
  Domain : string;
  Version : string;
  Kind : string;
  Plural : string;
  Path : string
}.

(** [safeImport] removes dashes and dots. *)
Definition safeImport (unsafe : string) : string :=
  gostrings.ReplaceAll (gostrings.ReplaceAll unsafe "-" "") "." "".

Definition PackageName (r : Resource) : string :=
  if String.eqb (Group r) "" then safeImport (Domain r)
  else safeImport (Group r).

Definition ImportAlias (r : Resource) : string :=
  if String.eqb (Group r) "" then safeImport (Domain r +:+ Version r)
  else safeImport (Group r +:+ Version r).

Definition Replacer (r : Resource) : gostrings.Replacer :=
  [ ("%[group]", Group r);
    ("%[version]", Version r);
    ("%[kind]", gostrings.ToLower (Kind r));
    ("%[plural]", gostrings.ToLower (Plural r));
    ("%[package-name]", PackageName r) ].

End resource.

(** ** Package [templates]: the manager entry point *)
Module templates.

Definition defaultMainPath : string := "cmd/main.go".
Definition defaultLegacyLayoutMainPath : string := "main.go".

Definition importMarker : string := "imports".
Definition addSchemeMarker : string := "scheme".
Definition setupMarker : string := "builder".

Definition apiImportCodeFragment : string :=
  raw [ "%s " +:+ Q "%s" ].

Definition controllerImportCodeFragment : string :=
  raw [ Q "%s/internal/controller" ].

Definition multiGroupControllerImportCodeFragment : string :=
  raw [ "%scontroller " +:+ Q "%s/internal/controller/%s" ].

Definition addschemeCodeFragment : string :=
  raw [ "utilruntime.Must(%s.AddToScheme(scheme))" ].

Definition reconcilerSetupCodeFragment : string :=
  raw [ "if err = (&controller.%sReconciler{";
    "		MaxConcurrentReconciles: concurrent,";
    "		RateLimiter: utilcontroller.GetRateLimiter(rateLimiterOptions),";
    "	}).SetupWithManager(mgr); err != nil {";
    "		setupLog.Error(err, " +:+ Q "unable to create controller" +:+ ", " +:+ Q "controller" +:+ ", " +:+ Q "%s" +:+ ")";
    "		os.Exit(1)";
    "	}" ].

Definition multiGroupReconcilerSetupCodeFragment : string :=
  raw [ "if err = (&%scontroller.%sReconciler{";
    "		MaxConcurrentReconciles: concurrent,";
    "		RateLimiter: utilcontroller.GetRateLimiter(rateLimiterOptions),";
    "	}).SetupWithManager(mgr); err != nil {";
    "		setupLog.Error(err, " +:+ Q "unable to create controller" +:+ ", " +:+ Q "controller" +:+ ", " +:+ Q "%s" +:+ ")";
    "		os.Exit(1)";
    "	}" ].

Definition webhookSetupCodeFragment : string :=
  raw [ "if os.Getenv(" +:+ Q "DISABLE_WEBHOOKS" +:+ ") != " +:+ Q "true" +:+ " {";
    "		if err = (&%s.%s{}).SetupWebhookWithManager(mgr); err != nil {";
    "			setupLog.Error(err, " +:+ Q "unable to create webhook" +:+ ", " +:+ Q "webhook" +:+ ", " +:+ Q "%s" +:+ ")";
    "			os.Exit(1)";
    "		}else{";
    "			setupLog.Info(" +:+ Q "webhook disable" +:+ ", " +:+ Q "webhook" +:+ ", " +:+ Q "%s" +:+ ")";
    "		}";
    "	}" ].

Definition mainTemplate : string :=
  raw [ "{{ .Boilerplate }}";
    "";
    "package main";
    "";
    "import (";
    "	" +:+ Q "flag";
    "	" +:+ Q "os";
    "";
    "	// Import all Kubernetes client auth plugins (e.g. Azure, GCP, OIDC, etc.)";
    "	// to ensure that exec-entrypoint and run can make use of them.";
    "	_ " +:+ Q "k8s.io/client-go/plugin/pkg/client/auth";
    "";
    "	" +:+ Q "k8s.io/apimachinery/pkg/runtime";
    "	utilruntime " +:+ Q "k8s.io/apimachinery/pkg/util/runtime";
    "	clientgoscheme " +:+ Q "k8s.io/client-go/kubernetes/scheme";
    "	ctrl " +:+ Q "sigs.k8s.io/controller-runtime";
    "	" +:+ Q "sigs.k8s.io/controller-runtime/pkg/log/zap";
    "	" +:+ Q "sigs.k8s.io/controller-runtime/pkg/healthz";
    "	%s";
    "	utilcontroller " +:+ Q "github.com/labring/operator-sdk/controller";
    ")";
    "";
    "var (";
    "	scheme = runtime.NewScheme()";
    "	setupLog = ctrl.Log.WithName(" +:+ Q "setup" +:+ ")";
    ")";
    "";
    "func init() {";
    "	utilruntime.Must(clientgoscheme.AddToScheme(scheme))";
    "";
    "	%s";
    "}";
    "";
    "func main() {";
    "	var (";
    "		metricsAddr          string";
    "		enableLeaderElection bool";
    "		probeAddr            string";
    "		concurrent           int";
    "		rateLimiterOptions   utilcontroller.RateLimiterOptions";
    "	)";
    "	flag.StringVar(&metricsAddr, " +:+ Q "metrics-bind-address" +:+ ", " +:+ Q ":8080" +:+ ", " +:+ Q "The address the metric endpoint binds to." +:+ ")";
    "	flag.StringVar(&probeAddr, " +:+ Q "health-probe-bind-address" +:+ ", " +:+ Q ":8081" +:+ ", " +:+ Q "The address the probe endpoint binds to." +:+ ")";
    "	flag.BoolVar(&enableLeaderElection, " +:+ Q "leader-elect" +:+ ", false,";
    "		" +:+ Q "Enable leader election for controller manager. " +:+ " +";
    "		" +:+ Q "Enabling this will ensure there is only one active controller manager." +:+ ")";
    "	flag.IntVar(&concurrent, " +:+ Q "concurrent" +:+ ", 5, " +:+ Q "The number of concurrent cluster reconciles." +:+ ")";
    "	rateLimiterOptions.BindFlags(flag.CommandLine)";
    "	opts := zap.Options{";
    "		Development: true,";
    "	}";
    "	opts.BindFlags(flag.CommandLine)";
    "	flag.Parse()";
    "";
    "	ctrl.SetLogger(zap.New(zap.UseFlagOptions(&opts)))";
    "";
    "	mgr, err := ctrl.NewManager(ctrl.GetConfigOrDie(), ctrl.Options{";
    "		Scheme:                 scheme,";
    "		MetricsBindAddress:     metricsAddr,";
    "		Port:                   9443,";
    "		HealthProbeBindAddress: probeAddr,";
    "		LeaderElection:         enableLeaderElection,";
    "		LeaderElectionID:       " +:+ Q "{{ hashFNV .Repo }}.{{ .Domain }}" +:+ ",";
    "		// LeaderElectionReleaseOnCancel defines if the leader should step down voluntarily";
    "		// when the Manager ends. This requires the binary to immediately end when the";
    "		// Manager is stopped, otherwise, this setting is unsafe. Setting this significantly";
    "		// speeds up voluntary leader transitions as the new leader don't have to wait";
    "		// LeaseDuration time first.";
    "		//";
    "		// In the default scaffold provided, the program ends immediately after ";
    "		// the manager stops, so would be fine to enable this option. However, ";
    "		// if you are doing or is intended to do any operation such as perform cleanups ";
    "		// after the manager stops then its usage might be unsafe.";
    "		// LeaderElectionReleaseOnCancel: true,";
    "	})";
    "	if err != nil {";
    "		setupLog.Error(err, " +:+ Q "unable to start manager" +:+ ")";
    "		os.Exit(1)";
    "	}";
    "	";
    "	%s";
    "	";
    "	if err := mgr.AddHealthzCheck(" +:+ Q "healthz" +:+ ", healthz.Ping); err != nil {";
    "		setupLog.Error(err, " +:+ Q "unable to set up health check" +:+ ")";
    "		os.Exit(1)";
    "	}";
    "	if err := mgr.AddReadyzCheck(" +:+ Q "readyz" +:+ ", healthz.Ping); err != nil {";
    "		setupLog.Error(err, " +:+ Q "unable to set up ready check" +:+ ")";
    "		os.Exit(1)";
    "	}";
    "";
    "	setupLog.Info(" +:+ Q "starting manager" +:+ ")";
    "	if err := mgr.Start(ctrl.SetupSignalHandler()); err != nil {";
    "		setupLog.Error(err, " +:+ Q "problem running manager" +:+ ")";
    "		os.Exit(1)";
    "	}";
    "}" ].

(** *** [Main]: the template of the entry point *)
Module Main.

Record t : Type := mk {
  TemplateMixin : machinery.TemplateMixin;
  Boilerplate : string;
  Domain : string;
  Repo : string;
  IsLegacyLayout : bool
}.

Definition set_TemplateMixin (m : machinery.TemplateMixin) (f : t) : t :=
  mk m (Boilerplate f) (Domain f) (Repo f) (IsLegacyLayout f).

Definition Path (f : t) : string := machinery.Path (TemplateMixin f).
Definition TemplateBody (f : t) : string :=
  machinery.TemplateBody (TemplateMixin f).

(** [SetTemplateDefaults] updates the receiver and returns a nil error; it
    panics when the path has no known extension. *)
Definition SetTemplateDefaults (f : t) : outcome (t * error) :=
  let f :=
    if String.eqb (Path f) "" then
      if IsLegacyLayout f then
        set_TemplateMixin
          (machinery.set_Path (filepath.Join [defaultLegacyLayoutMainPath])
             (TemplateMixin f)) f
      else
        set_TemplateMixin
          (machinery.set_Path (filepath.Join [defaultMainPath])
             (TemplateMixin f)) f
    else f in
  m1 ← machinery.NewMarkerFor (Path f) importMarker;
  m2 ← machinery.NewMarkerFor (Path f) addSchemeMarker;
  m3 ← machinery.NewMarkerFor (Path f) setupMarker;
  let f :=
    set_TemplateMixin
      (machinery.set_TemplateBody
         (fmt.Sprintf mainTemplate
            [machinery.Marker_String m1;
             machinery.Marker_String m2;
             machinery.Marker_String m3])
         (TemplateMixin f)) f in
  mret (f, None).

End Main.

(** *** [MainUpdater]: the injector into the entry point *)
Module MainUpdater.

Record t : Type := mk {
  Repo : string;
  MultiGroup : bool;
  Resource : option resource.Resource;
  WireResource : bool;
  WireController : bool;
  WireWebhook : bool;
  IsLegacyLayout : bool
}.

Definition GetPath (f : t) : string :=
  if IsLegacyLayout f then defaultLegacyLayoutMainPath else defaultMainPath.

Definition GetIfExistsAction (f : t) : machinery.IfExistsAction :=
  machinery.OverwriteFile.

Definition GetMarkers (f : t) : outcome (list machinery.Marker) :=
  m1 ← machinery.NewMarkerFor (GetPath f) importMarker;
  m2 ← machinery.NewMarkerFor (GetPath f) addSchemeMarker;
  m3 ← machinery.NewMarkerFor (GetPath f) setupMarker;
  mret [m1; m2; m3].

(** The [imports] slice of [GetCodeFragments]. *)
Definition imports (f : t) (r : resource.Resource) : list string :=
  let imports := [] in
  let imports :=
    if WireResource f then
      imports ++ [fmt.Sprintf apiImportCodeFragment
                    [resource.ImportAlias r; resource.Path r]]
    else imports in
  if WireController f then
    if negb (MultiGroup f) || String.eqb (resource.Group r) "" then
      if IsLegacyLayout f then
        imports ++ [fmt.Sprintf
                      (gostrings.ReplaceAll controllerImportCodeFragment
                         "internal/controller" "controllers")
                      [Repo f]]
      else
        imports ++ [fmt.Sprintf controllerImportCodeFragment [Repo f]]
    else
      if IsLegacyLayout f then
        imports ++ [fmt.Sprintf
                      (gostrings.ReplaceAll
                         multiGroupControllerImportCodeFragment
                         "internal/controller" "controllers")
                      [resource.PackageName r; Repo f; resource.Group r]]
      else
        imports ++ [fmt.Sprintf multiGroupControllerImportCodeFragment
                      [resource.PackageName r; Repo f; resource.Group r]]
  else imports.

(** The [addScheme] slice. *)
Definition addScheme (f : t) (r : resource.Resource) : list string :=
  let addScheme := [] in
  if WireResource f then
    addScheme ++ [fmt.Sprintf addschemeCodeFragment [resource.ImportAlias r]]
  else addScheme.

(** The [setup] slice. *)
Definition setup (f : t) (r : resource.Resource) : list string :=
  let setup := [] in
  let setup :=
    if WireController f then
      if negb (MultiGroup f) || String.eqb (resource.Group r) "" then
        setup ++ [fmt.Sprintf reconcilerSetupCodeFragment
                    [resource.Kind r; resource.Kind r]]
      else
        setup ++ [fmt.Sprintf multiGroupReconcilerSetupCodeFragment
                    [resource.PackageName r; resource.Kind r;
                     resource.Kind r]]
    else setup in
  if WireWebhook f then
    setup ++ [fmt.Sprintf webhookSetupCodeFragment
                [resource.ImportAlias r; resource.Kind r; resource.Kind r;
                 resource.Kind r]]
  else setup.

(** [fragments[NewMarkerFor(f.GetPath(), name)] = slice], done only for a
    non-empty slice. *)
Definition store (f : t) (name : string) (slice : list string)
    (fragments : machinery.CodeFragmentsMap)
  : outcome machinery.CodeFragmentsMap :=
  if negb (Nat.eqb (length slice) 0) then
    m ← machinery.NewMarkerFor (GetPath f) name;
    mret (<[m := slice]> fragments)
  else mret fragments.

Definition GetCodeFragments (f : t) : outcome machinery.CodeFragmentsMap :=
  let fragments : machinery.CodeFragmentsMap := ∅ in
  match Resource f with
  | None => mret fragments
  | Some r =>
      let imports := imports f r in
      let addScheme := addScheme f r in
      let setup := setup f r in
      fragments ← store f importMarker imports fragments;
      fragments ← store f addSchemeMarker addScheme fragments;
      fragments ← store f setupMarker setup fragments;
      mret fragments
  end.

End MainUpdater.

End templates.

(** Dereferencing a Go pointer. *)
Definition deref {A : Type} (p : option A) : outcome A :=
  match p with
  | Some a => Returns a
  | None => Panics "invalid memory address or nil pointer dereference"
  end.

(** ** Package [api]: the schema file of a CRD *)
Module api.

Definition typesTemplate : string :=
  raw [ "{{ .Boilerplate }}";
    "";
    "package {{ .Resource.Version }}";
    "";
    "import (";
    "	metav1 " +:+ Q "k8s.io/apimachinery/pkg/apis/meta/v1";
    ")";
    "";
    "// EDIT THIS FILE!  THIS IS SCAFFOLDING FOR YOU TO OWN!";
    "// NOTE: json tags are required.  Any new fields you add must have json tags for the fields to be serialized.";
    "";
    "// {{ .Resource.Kind }}Spec defines the desired state of {{ .Resource.Kind }}";
    "type {{ .Resource.Kind }}Spec struct {";
    "	// INSERT ADDITIONAL SPEC FIELDS - desired state of cluster";
    "	// Important: Run " +:+ Q "make" +:+ " to regenerate code after modifying this file";
    "";
    "	// Foo is an example field of {{ .Resource.Kind }}. Edit {{ lower .Resource.Kind }}_types.go to remove/update";
    "	Foo string `json:" +:+ Q "foo,omitempty" +:+ "`";
    "}";
    "";
    "type {{ .Resource.Kind }}Phase string";
    "";
    "// These are the valid phases of node.";
    "const (";
    "	{{ .Resource.Kind }}Pending {{ .Resource.Kind }}Phase = " +:+ Q "Pending";
    "	{{ .Resource.Kind }}Unknown {{ .Resource.Kind }}Phase = " +:+ Q "Unknown";
    "	{{ .Resource.Kind }}Active  {{ .Resource.Kind }}Phase = " +:+ Q "Active";
    ")";
    "";
    "// {{ .Resource.Kind }}Status defines the observed state of {{ .Resource.Kind }}";
    "type {{ .Resource.Kind }}Status struct {";
    "	// Phase represents the current phase of {{ .Resource.Kind }}.";
    "	//+kubebuilder:default:=Unknown";
    "	Phase {{ .Resource.Kind }}Phase `json:" +:+ Q "phase,omitempty" +:+ "`";
    "	// Represents the observations of a {{ .Resource.Kind }}'s current state.";
    "	// {{ .Resource.Kind }}.status.conditions.type are: " +:+ Q "Available" +:+ ", " +:+ Q "Progressing" +:+ ", and " +:+ Q "Degraded";
    "	// {{ .Resource.Kind }}.status.conditions.status are one of True, False, Unknown.";
    "	// {{ .Resource.Kind }}.status.conditions.reason the value should be a CamelCase string and producers of specific";
    "	// condition types may define expected values and meanings for this field, and whether the values";
    "	// are considered a guaranteed API.";
    "	// {{ .Resource.Kind }}.status.conditions.Message is a human readable message indicating details about the transition.";
    "	// For further information see: https://github.com/kubernetes/community/blob/master/contributors/devel/sig-architecture/api-conventions.md#typical-status-properties";
    "";
    "	Conditions []metav1.Condition `json:" +:+ Q "conditions,omitempty" +:+ " patchStrategy:" +:+ Q "merge" +:+ " patchMergeKey:" +:+ Q "type" +:+ " protobuf:" +:+ Q "bytes,1,rep,name=conditions" +:+ "`";
    "}";
    "";
    "//+kubebuilder:object:root=true";
    "//+kubebuilder:subresource:status";
    "{{- if and (not .Resource.API.Namespaced) (not .Resource.IsRegularPlural) }}";
    "//+kubebuilder:resource:path={{ .Resource.Plural }},scope=Cluster";
    "{{- else if not .Resource.API.Namespaced }}";
    "//+kubebuilder:resource:scope=Cluster";
    "{{- else if not .Resource.IsRegularPlural }}";
    "//+kubebuilder:resource:path={{ .Resource.Plural }}";
    "{{- end }}";
    "";
    "// {{ .Resource.Kind }} is the Schema for the {{ .Resource.Plural }} API";
    "type {{ .Resource.Kind }} struct {";
    "	metav1.TypeMeta   `json:" +:+ Q ",inline" +:+ "`";
    "	metav1.ObjectMeta `json:" +:+ Q "metadata,omitempty" +:+ "`";
    "";
    "	Spec   {{ .Resource.Kind }}Spec   `json:" +:+ Q "spec,omitempty" +:+ "`";
    "	Status {{ .Resource.Kind }}Status `json:" +:+ Q "status,omitempty" +:+ "`";
    "}";
    "";
    "//+kubebuilder:object:root=true";
    "";
    "// {{ .Resource.Kind }}List contains a list of {{ .Resource.Kind }}";
    "type {{ .Resource.Kind }}List struct {";
    "	metav1.TypeMeta `json:" +:+ Q ",inline" +:+ "`";
    "	metav1.ListMeta `json:" +:+ Q "metadata,omitempty" +:+ "`";
    "	Items           []{{ .Resource.Kind }} `json:" +:+ Q "items" +:+ "`";
    "}";
    "";
    "func init() {";
    "	SchemeBuilder.Register(&{{ .Resource.Kind }}{}, &{{ .Resource.Kind }}List{})";
    "}" ].

Module Types.

Record t : Type := mk {
  TemplateMixin : machinery.TemplateMixin;
  MultiGroup : bool;
  Boilerplate : string;
  Resource : option resource.Resource;
  Force : bool
}.

Definition set_TemplateMixin (m : machinery.TemplateMixin) (f : t) : t :=
  mk m (MultiGroup f) (Boilerplate f) (Resource f) (Force f).

Definition Path (f : t) : string := machinery.Path (TemplateMixin f).
Definition IfExistsAction (f : t) : machinery.IfExistsAction :=
  machinery.IfExistsAction_ (TemplateMixin f).

Definition set_Path (p : string) (f : t) : t :=
  set_TemplateMixin (machinery.set_Path p (TemplateMixin f)) f.

(** [SetTemplateDefaults] returns the updated receiver, the nil error and
    the line it prints; it panics where [f.Resource] is nil. In
    [f.MultiGroup && f.Resource.Group != ""] the pointer is read only when
    [f.MultiGroup] holds. *)
Definition SetTemplateDefaults (f : t) : outcome (t * error * list string) :=
  f ← (if String.eqb (Path f) "" then
         multi ← (if MultiGroup f then
                    r ← deref (Resource f);
                    mret (negb (String.eqb (resource.Group r) ""))
                  else mret false);
         if multi : bool then
           mret (set_Path
                   (filepath.Join
                      ["api"; "%[group]"; "%[version]"; "%[kind]_types.go"]) f)
         else
           mret (set_Path
                   (filepath.Join ["api"; "%[version]"; "%[kind]_types.go"]) f)
       else mret f);
  r ← deref (Resource f);
  let f := set_Path (gostrings.Replace (resource.Replacer r) (Path f)) f in
  let stdout := [Path f] in
  let f :=
    set_TemplateMixin
      (machinery.set_TemplateBody typesTemplate (TemplateMixin f)) f in
  let f :=
    if Force f then
      set_TemplateMixin
        (machinery.set_IfExistsAction machinery.OverwriteFile
           (TemplateMixin f)) f
    else
      set_TemplateMixin
        (machinery.set_IfExistsAction machinery.Error (TemplateMixin f)) f in
  mret (f, None, stdout).

End Types.

End api.

(** ** Package [charts]: the ignore file of the Helm chart *)
Module charts.

Definition helmIgnoreTemplate : string :=
  raw [ "# Patterns to ignore when building packages.";
    "# This supports shell glob matching, relative path matching, and";
    "# negation (prefixed with !). Only one pattern per line.";
    ".DS_Store";
    "# Common VCS dirs";
    ".git/";
    ".gitignore";
    ".bzr/";
    ".bzrignore";
    ".hg/";
    ".hgignore";
    ".svn/";
    "# Common backup files";
    "*.swp";
    "*.bak";
    "*.tmp";
    "*.orig";
    "*~";
    "# Various IDEs";
    ".project";
    ".idea/";
    "*.tmproj";
    ".vscode/";
    "" ].

Module HelmIgnore.

Record t : Type := mk {
  TemplateMixin : machinery.TemplateMixin;
  ProjectName : string;
  Force : bool
}.

Definition set_TemplateMixin (m : machinery.TemplateMixin) (f : t) : t :=
  mk m (ProjectName f) (Force f).

Definition Path (f : t) : string := machinery.Path (TemplateMixin f).
Definition IfExistsAction (f : t) : machinery.IfExistsAction :=
  machinery.IfExistsAction_ (TemplateMixin f).

(** [SetTemplateDefaults] dereferences nothing: it returns the updated
    receiver and the nil error. *)
Definition SetTemplateDefaults (f : t) : t * error :=
  let f :=
    if String.eqb (Path f) "" then
      set_TemplateMixin
        (machinery.set_Path
           (filepath.Join ["config"; "charts"; ProjectName f; ".helmignore"])
           (TemplateMixin f)) f
    else f in
  let f :=
    set_TemplateMixin
      (machinery.set_TemplateBody helmIgnoreTemplate (TemplateMixin f)) f in
  let f :=
    if Force f then
      set_TemplateMixin
        (machinery.set_IfExistsAction machinery.OverwriteFile
           (TemplateMixin f)) f
    else
      set_TemplateMixin
        (machinery.set_IfExistsAction machinery.SkipFile (TemplateMixin f)) f in
  (f, None).

End HelmIgnore.

End charts.

(** ** Package [scaffolds]: the webhook scaffolder *)
Module scaffolds.

(** The chart templates [Scaffold] hands to the machinery, with the fields
    it sets. *)
Inductive Builder : Type :=
  | Helpers (Force WebhookEnabled : bool)
  | WebhookCertManagerCheck (Force : bool)
  | WebhookService (Force : bool)
  | WebhookCertificate (Force : bool).

(** What a run of [Scaffold] does to the world outside, in order. *)
Inductive Event : Type :=
  | Println (line : string)
  | UpdateResourceCall (r : resource.Resource)
  | ExecuteCall (builders : list Builder).

(** The builders handed to [Execute] in a run. *)
Definition executed (trace : list Event) : list Builder :=
  flat_map (fun ev => match ev with ExecuteCall bs => bs | _ => [] end) trace.

Section webhookScaffolder.

(** The project configuration (the interface [config.Config]) and the
    file tree behind [machinery.Filesystem]. *)
Context {Config Filesystem : Type}.

(** [config.Config.UpdateResource]: the configuration after the call and
    the error it returns. *)
Variable UpdateResource : Config -> resource.Resource -> Config * error.

(** [machinery.Scaffold.Execute] of the scaffold built by
    [machinery.NewScaffold(s.fs, WithConfig(s.config),
    WithResource(&s.resource))]. The scaffold holds the file system, the
    configuration (an interface value) and a pointer to the scaffolder's
    resource, so the call can change all three: it returns the file tree,
    the configuration and the resource as it left them, and its error. *)
Variable Execute :
  Filesystem -> Config -> resource.Resource -> list Builder ->
  Filesystem * Config * resource.Resource * error.

(** The zero value of [machinery.Filesystem]. *)
Variable zeroFilesystem : Filesystem.

Record webhookScaffolder : Type := mkWebhookScaffolder {
  config : Config;
  resource_ : resource.Resource;
  fs : Filesystem;
  force : bool
}.

(** [NewWebhookScaffolder] leaves [fs] at the zero value of its struct. *)
Definition NewWebhookScaffolder (config : Config)
    (resource : resource.Resource) (force : bool) : webhookScaffolder :=
  mkWebhookScaffolder config resource zeroFilesystem force.

Definition InjectFS (fs : Filesystem) (s : webhookScaffolder)
  : webhookScaffolder :=
  mkWebhookScaffolder (config s) (resource_ s) fs (force s).

(** [Scaffold]: the scaffolder after the run, the trace of the run and the
    error returned. [UpdateResource] receives the resource by value and
    can change the configuration only. The [machinery.Scaffold] built
    first shares the scaffolder's file system, configuration and resource,
    so [Execute] sees the configuration as [UpdateResource] left it, and
    the scaffolder ends with all three as [Execute] left them. *)
Definition Scaffold (s : webhookScaffolder)
  : webhookScaffolder * list Event * error :=
  let trace := [Println "Writing helm manifests for you to edit..."] in
  let '(config', err) := UpdateResource (config s) (resource_ s) in
  let s := mkWebhookScaffolder config' (resource_ s) (fs s) (force s) in
  let trace := trace ++ [UpdateResourceCall (resource_ s)] in
  match err with
  | Some err => (s, trace, Some (fmt.Errorf_w "error updating resource: " err))
  | None =>
      let builders :=
        [ Helpers true true;
          WebhookCertManagerCheck (force s);
          WebhookService (force s);
          WebhookCertificate (force s) ] in
      let '(fs', config'', resource', err) :=
        Execute (fs s) (config s) (resource_ s) builders in
      let s := mkWebhookScaffolder config'' resource' fs' (force s) in
      let trace := trace ++ [ExecuteCall builders] in
      match err with
      | Some err =>
          (s, trace,
           Some (fmt.Errorf_v
                   "error scaffolding helm webhook manifests: " err))
      | None => (s, trace, None)
      end
  end.

End webhookScaffolder.

End scaffolds.

(** * Properties of the scaffolding code *)

(** ** Names used in the statements *)

(** The marker of name [name] in a Go source file. *)
Definition goMarker (name : string) : machinery.Marker :=
  machinery.mkMarker "//" name.

(** What [MainUpdater.store] leaves in the map. *)
Definition stored (m : machinery.Marker) (slice : list string)
    (fragments : machinery.CodeFragmentsMap) : machinery.CodeFragmentsMap :=
  match slice with
  | [] => fragments
  | _ :: _ => <[m := slice]> fragments
  end.

(** The test [f.MultiGroup && f.Resource.Group != ""] that selects the
    multi-group variants. *)
Definition grouped (multiGroup : bool) (r : resource.Resource) : bool :=
  multiGroup && negb (String.eqb (resource.Group r) "").

(** The four controller import lines, by layout and grouping. *)
Definition controllerImportText (legacy multi : bool)
    (repo packageName group : string) : string :=
  match legacy, multi with
  | false, false => dq +:+ repo +:+ "/internal/controller" +:+ dq +:+ nl
  | false, true =>
      packageName +:+ "controller " +:+
      dq +:+ repo +:+ "/internal/controller/" +:+ group +:+ dq +:+ nl
  | true, false => dq +:+ repo +:+ "/controllers" +:+ dq +:+ nl
  | true, true =>
      packageName +:+ "controller " +:+
      dq +:+ repo +:+ "/controllers/" +:+ group +:+ dq +:+ nl
  end.

(** The API import line. *)
Definition apiImport (r : resource.Resource) : string :=
  fmt.Sprintf templates.apiImportCodeFragment
    [resource.ImportAlias r; resource.Path r].

(** The reconciler setup fragment, single-group or multi-group. *)
Definition reconcilerSetup (multi : bool) (r : resource.Resource) : string :=
  if multi then
    fmt.Sprintf templates.multiGroupReconcilerSetupCodeFragment
      [resource.PackageName r; resource.Kind r; resource.Kind r]
  else
    fmt.Sprintf templates.reconcilerSetupCodeFragment
      [resource.Kind r; resource.Kind r].

(** The webhook setup fragment of an import alias and a kind. *)
Definition webhookSetup (alias kind : string) : string :=
  fmt.Sprintf templates.webhookSetupCodeFragment [alias; kind; kind; kind].

(** The same fragment written out. *)
Definition webhookSetupText (alias kind : string) : string :=
  "if os.Getenv(" +:+ Q "DISABLE_WEBHOOKS" +:+ ") != " +:+ Q "true" +:+ " {" +:+ nl +:+
  tab +:+ tab +:+ "if err = (&" +:+ alias +:+ "." +:+ kind +:+
    "{}).SetupWebhookWithManager(mgr); err != nil {" +:+ nl +:+
  tab +:+ tab +:+ tab +:+ "setupLog.Error(err, " +:+ Q "unable to create webhook" +:+
    ", " +:+ Q "webhook" +:+ ", " +:+ dq +:+ kind +:+ dq +:+ ")" +:+ nl +:+
  tab +:+ tab +:+ tab +:+ "os.Exit(1)" +:+ nl +:+
  tab +:+ tab +:+ "}else{" +:+ nl +:+
  tab +:+ tab +:+ tab +:+ "setupLog.Info(" +:+ Q "webhook disable" +:+
    ", " +:+ Q "webhook" +:+ ", " +:+ dq +:+ kind +:+ dq +:+ ")" +:+ nl +:+
  tab +:+ tab +:+ "}" +:+ nl +:+
  tab +:+ "}" +:+ nl.

(** The webhook fragment of a fragments map: [GetCodeFragments] appends it
    last to the slice of the setup marker. *)
Definition webhookFragment (m : machinery.CodeFragmentsMap) : option string :=
  l ← m !! goMarker templates.setupMarker; last l.

(** A [MainUpdater] with its grouping and layout flags replaced. *)
Definition withFlags (multiGroup legacy : bool) (f : templates.MainUpdater.t)
  : templates.MainUpdater.t :=
  templates.MainUpdater.mk (templates.MainUpdater.Repo f) multiGroup
    (templates.MainUpdater.Resource f) (templates.MainUpdater.WireResource f)
    (templates.MainUpdater.WireController f)
    (templates.MainUpdater.WireWebhook f) legacy.

(** The builders of [webhookScaffolder.Scaffold]. *)
Definition webhookBuilders (force : bool) : list scaffolds.Builder :=
  [ scaffolds.Helpers true true;
    scaffolds.WebhookCertManagerCheck force;
    scaffolds.WebhookService force;
    scaffolds.WebhookCertificate force ].

(** A sample resource and project for the closed instances below. *)
Definition guestbook : resource.Resource :=
  resource.mkResource "web-app" "example.com" "v1" "Guestbook" "guestbooks"
    "example.com/proj/api/web-app/v1".

Definition sampleUpdater (multiGroup legacy : bool) : templates.MainUpdater.t :=
  templates.MainUpdater.mk "example.com/proj" multiGroup (Some guestbook)
    true true true legacy.

(** A sample project configuration (the resources it records) and file
    tree (the paths written): updating fails on a resource without a kind,
    executing fails on a file tree that is not empty. *)
Definition sampleUpdateResource (cfg : list resource.Resource)
    (r : resource.Resource) : list resource.Resource * error :=
  if String.eqb (resource.Kind r) "" then
    (cfg, Some (mkErr "kind cannot be empty" None))
  else (r :: cfg, None).

Definition sampleExecute (fs : list string) (cfg : list resource.Resource)
    (r : resource.Resource) (builders : list scaffolds.Builder)
  : list string * list resource.Resource * resource.Resource * error :=
  match fs with
  | [] => (["config/charts/templates/webhook-service.yaml"], cfg, r, None)
  | path :: _ =>
      (fs, cfg, r, Some (mkErr ("file already exists: " +:+ path) None))
  end.

Definition sampleScaffolder (kind : string) (fs : list string)
  : @scaffolds.webhookScaffolder (list resource.Resource) (list string) :=
  scaffolds.mkWebhookScaffolder []
    (resource.mkResource "web-app" "example.com" "v1" kind "guestbooks" "")
    fs false.

(** ** Names used in the further properties *)

(** The last character of a text. *)
Fixpoint last_char (s : string) : option ascii :=
  match s with
  | EmptyString => None
  | String c s' =>
      match last_char s' with
      | Some d => Some d
      | None => Some c
      end
  end.

(** A text without a percent sign holds no path placeholder. *)
Fixpoint percent_free (s : string) : bool :=
  match s with
  | EmptyString => true
  | String c s' => negb (Ascii.eqb c "%") && percent_free s'
  end.

(** A text without a path separator. *)
Fixpoint no_separator (s : string) : bool :=
  match s with
  | EmptyString => true
  | String c s' => negb (filepath.is_sep c) && no_separator s'
  end.

(** A project name that is one proper path element. *)
Definition plain_name (s : string) : bool :=
  no_separator s && negb (String.eqb s "") && negb (String.eqb s ".")
  && negb (String.eqb s "..").

(** The file extensions [machinery] knows a comment for. *)
Definition known_extension (path : string) : bool :=
  let ext := filepath.Ext path in
  String.eqb ext ".go" || String.eqb ext ".yaml" || String.eqb ext ".yml".

(** The reconciler setup fragment written out, for a package qualifier. *)
Definition reconcilerSetupText (qualifier kind : string) : string :=
  "if err = (&" +:+ qualifier +:+ "." +:+ kind +:+ "Reconciler{" +:+ nl +:+
  tab +:+ tab +:+ "MaxConcurrentReconciles: concurrent," +:+ nl +:+
  tab +:+ tab +:+
    "RateLimiter: utilcontroller.GetRateLimiter(rateLimiterOptions)," +:+ nl +:+
  tab +:+ "}).SetupWithManager(mgr); err != nil {" +:+ nl +:+
  tab +:+ tab +:+ "setupLog.Error(err, " +:+ Q "unable to create controller" +:+
    ", " +:+ Q "controller" +:+ ", " +:+ dq +:+ kind +:+ dq +:+ ")" +:+ nl +:+
  tab +:+ tab +:+ "os.Exit(1)" +:+ nl +:+
  tab +:+ "}" +:+ nl.

(** The package qualifier of the controller package in [main.go]. *)
Definition controllerQualifier (multi : bool) (r : resource.Resource)
  : string :=
  if multi then resource.PackageName r +:+ "controller" else "controller".

(** A [MainUpdater] with its repository and layout replaced. *)
Definition withRepoLayout (repo : string) (legacy : bool)
    (f : templates.MainUpdater.t) : templates.MainUpdater.t :=
  templates.MainUpdater.mk repo (templates.MainUpdater.MultiGroup f)
    (templates.MainUpdater.Resource f) (templates.MainUpdater.WireResource f)
    (templates.MainUpdater.WireController f)
    (templates.MainUpdater.WireWebhook f) legacy.

(** A [MainUpdater] with its three wiring flags replaced. *)
Definition withWiring (wireResource wireController wireWebhook : bool)
    (f : templates.MainUpdater.t) : templates.MainUpdater.t :=
  templates.MainUpdater.mk (templates.MainUpdater.Repo f)
    (templates.MainUpdater.MultiGroup f) (templates.MainUpdater.Resource f)
    wireResource wireController wireWebhook
    (templates.MainUpdater.IsLegacyLayout f).

(** The path [Main.SetTemplateDefaults] works with: the template's own
    path, or the default of the layout for an empty one. *)
Definition Main_resolved_path (f : templates.Main.t) : string :=
  if String.eqb (templates.Main.Path f) "" then
    if templates.Main.IsLegacyLayout f then "main.go" else "cmd/main.go"
  else templates.Main.Path f.

(** The three sentinels of a comment prefix. *)
Definition sentinels (comment : string) : list string :=
  map (fun name => machinery.Marker_String (machinery.mkMarker comment name))
    [templates.importMarker; templates.addSchemeMarker; templates.setupMarker].

(** A [Main] template with its path and body replaced. *)
Definition Main_with (path body : string) (f : templates.Main.t)
  : templates.Main.t :=
  templates.Main.mk
    (machinery.mkTemplateMixin path
       (machinery.IfExistsAction_ (templates.Main.TemplateMixin f)) body)
    (templates.Main.Boilerplate f) (templates.Main.Domain f)
    (templates.Main.Repo f) (templates.Main.IsLegacyLayout f).

(** The path pattern [Types.SetTemplateDefaults] resolves: the template's
    own path, or the default pattern for an empty one. *)
Definition Types_pattern (f : api.Types.t) (r : resource.Resource) : string :=
  if String.eqb (api.Types.Path f) "" then
    if api.Types.MultiGroup f && negb (String.eqb (resource.Group r) "") then
      "api/%[group]/%[version]/%[kind]_types.go"
    else "api/%[version]/%[kind]_types.go"
  else api.Types.Path f.

(** A [Types] template after [SetTemplateDefaults] resolved [path]. *)
Definition Types_with (path : string) (f : api.Types.t) : api.Types.t :=
  api.Types.mk
    (machinery.mkTemplateMixin path
       (if api.Types.Force f then machinery.OverwriteFile
        else machinery.Error)
       api.typesTemplate)
    (api.Types.MultiGroup f) (api.Types.Boilerplate f) (api.Types.Resource f)
    (api.Types.Force f).

(** A [HelmIgnore] template after [SetTemplateDefaults] resolved [path]. *)
Definition HelmIgnore_with (path : string) (h : charts.HelmIgnore.t)
  : charts.HelmIgnore.t :=
  charts.HelmIgnore.mk
    (machinery.mkTemplateMixin path
       (if charts.HelmIgnore.Force h then machinery.OverwriteFile
        else machinery.SkipFile)
       charts.helmIgnoreTemplate)
    (charts.HelmIgnore.ProjectName h) (charts.HelmIgnore.Force h).

(** ** The models of the Go library on sample inputs *)

Example Sprintf_sample :
  fmt.Sprintf "a %s b %s." ["x"; "y"] = "a x b y."
  /\ fmt.Sprintf "%s and %s" ["x"] = "x and %!s(MISSING)"
  /\ fmt.Sprintf "%s" ["x"; "y"] = "x%!(EXTRA string=y)".
Proof. repeat split. Qed.

Example Clean_sample :
  map filepath.Clean ["a//b/./c/.."; "/../a"; "../../x"; "a/.."; ""; "cmd/main.go"]
  = ["a/b"; "/a"; "../../x"; "."; "."; "cmd/main.go"].
Proof. reflexivity. Qed.

Example Ext_sample :
  map filepath.Ext ["cmd/main.go"; "a.b/c"; "x.tar.gz"; "main.go"; "values.yaml"]
  = [".go"; ""; ".gz"; ".go"; ".yaml"].
Proof. reflexivity. Qed.

Example ReplaceAll_sample :
  gostrings.ReplaceAll "aXXbXc" "X" "yy" = "ayyyybyyc"
  /\ gostrings.ReplaceAll templates.controllerImportCodeFragment
       "internal/controller" "controllers"
     = Q "%s/controllers" +:+ nl.
Proof. split; reflexivity. Qed.

Example safeImport_sample :
  resource.ImportAlias guestbook = "webappv1"
  /\ resource.PackageName guestbook = "webapp".
Proof. split; reflexivity. Qed.

(** Every format string of the plugin has [%s] verbs only, as many as the
    call has operands. *)
Lemma format_verbs :
  map fmt.verbs
    [ templates.apiImportCodeFragment;
      templates.controllerImportCodeFragment;
      templates.multiGroupControllerImportCodeFragment;
      templates.addschemeCodeFragment;
      templates.reconcilerSetupCodeFragment;
      templates.multiGroupReconcilerSetupCodeFragment;
      templates.webhookSetupCodeFragment;
      templates.mainTemplate ]
  = map (fun n => replicate n "s"%char) [2; 1; 3; 1; 2; 3; 4; 3].
Proof. vm_compute. reflexivity. Qed.

(** The replacer never scans the text it wrote: a path pattern resolves to
    the concatenation of its literal parts and the resource's fields,
    whatever these contain. *)
Lemma Replace_version_kind (r : resource.Resource) :
  gostrings.Replace (resource.Replacer r) "api/%[version]/%[kind]_types.go"
  = "api/" +:+ resource.Version r +:+ "/" +:+
    gostrings.ToLower (resource.Kind r) +:+ "_types.go".
Proof. reflexivity. Qed.

Lemma Replace_group_version_kind (r : resource.Resource) :
  gostrings.Replace (resource.Replacer r)
    "api/%[group]/%[version]/%[kind]_types.go"
  = "api/" +:+ resource.Group r +:+ "/" +:+ resource.Version r +:+ "/" +:+
    gostrings.ToLower (resource.Kind r) +:+ "_types.go".
Proof. reflexivity. Qed.

(** [%w] keeps the operand as the wrapped error, [%v] keeps its text only. *)
Lemma Errorf_Unwrap (text : string) (e : Err) :
  Unwrap (fmt.Errorf_w text e) = Some e
  /\ Unwrap (fmt.Errorf_v text e) = None
  /\ Err_Error (fmt.Errorf_w text e) = Err_Error (fmt.Errorf_v text e).
Proof. repeat split. Qed.

(** ** The fragments map of [MainUpdater] *)

Lemma NewMarkerFor_GetPath (f : templates.MainUpdater.t) (name : string) :
  machinery.NewMarkerFor (templates.MainUpdater.GetPath f) name
  = Returns (goMarker name).
Proof.
  unfold templates.MainUpdater.GetPath.
  destruct (templates.MainUpdater.IsLegacyLayout f); reflexivity.
Qed.

Lemma store_stored f name slice fragments :
  templates.MainUpdater.store f name slice fragments
  = Returns (stored (goMarker name) slice fragments).
Proof.
  unfold templates.MainUpdater.store. rewrite NewMarkerFor_GetPath.
  destruct slice; reflexivity.
Qed.

Lemma GetCodeFragments_nil f :
  templates.MainUpdater.Resource f = None ->
  templates.MainUpdater.GetCodeFragments f = Returns ∅.
Proof.
  intros Hr. unfold templates.MainUpdater.GetCodeFragments.
  rewrite Hr. reflexivity.
Qed.

Lemma GetCodeFragments_Some f r :
  templates.MainUpdater.Resource f = Some r ->
  templates.MainUpdater.GetCodeFragments f
  = Returns
      (stored (goMarker templates.setupMarker)
         (templates.MainUpdater.setup f r)
         (stored (goMarker templates.addSchemeMarker)
            (templates.MainUpdater.addScheme f r)
            (stored (goMarker templates.importMarker)
               (templates.MainUpdater.imports f r) ∅))).
Proof.
  intros Hr. unfold templates.MainUpdater.GetCodeFragments. rewrite Hr.
  cbv zeta. rewrite store_stored. cbn [mbind outcome_bind].
  rewrite store_stored. cbn [mbind outcome_bind].
  rewrite store_stored. reflexivity.
Qed.

Lemma lookup_stored_eq m slice (fragments : machinery.CodeFragmentsMap) :
  stored m slice fragments !! m
  = match slice with [] => fragments !! m | _ :: _ => Some slice end.
Proof. destruct slice; simpl; [done|]. by rewrite lookup_insert_eq. Qed.

Lemma lookup_stored_ne m m' slice (fragments : machinery.CodeFragmentsMap) :
  m <> m' -> stored m slice fragments !! m' = fragments !! m'.
Proof. intros. destruct slice; simpl; [done|]. by rewrite lookup_insert_ne. Qed.

Lemma goMarker_inj name name' : name <> name' -> goMarker name <> goMarker name'.
Proof. intros Hne Heq. apply Hne. by injection Heq. Qed.

(** The three lookups of the map [GetCodeFragments] returns. *)
Lemma lookup_imports f r m :
  templates.MainUpdater.Resource f = Some r ->
  templates.MainUpdater.GetCodeFragments f = Returns m ->
  m !! goMarker templates.importMarker
  = match templates.MainUpdater.imports f r with
    | [] => None
    | l => Some l
    end.
Proof.
  intros Hr Hm. rewrite (GetCodeFragments_Some f r Hr) in Hm.
  injection Hm as <-.
  rewrite lookup_stored_ne by (apply goMarker_inj; discriminate).
  rewrite lookup_stored_ne by (apply goMarker_inj; discriminate).
  rewrite lookup_stored_eq.
  destruct (templates.MainUpdater.imports f r); reflexivity.
Qed.

Lemma lookup_addScheme f r m :
  templates.MainUpdater.Resource f = Some r ->
  templates.MainUpdater.GetCodeFragments f = Returns m ->
  m !! goMarker templates.addSchemeMarker
  = match templates.MainUpdater.addScheme f r with
    | [] => None
    | l => Some l
    end.
Proof.
  intros Hr Hm. rewrite (GetCodeFragments_Some f r Hr) in Hm.
  injection Hm as <-.
  rewrite lookup_stored_ne by (apply goMarker_inj; discriminate).
  rewrite lookup_stored_eq.
  destruct (templates.MainUpdater.addScheme f r) eqn:E; [|reflexivity].
  rewrite lookup_stored_ne by (apply goMarker_inj; discriminate).
  reflexivity.
Qed.

Lemma lookup_setup f r m :
  templates.MainUpdater.Resource f = Some r ->
  templates.MainUpdater.GetCodeFragments f = Returns m ->
  m !! goMarker templates.setupMarker
  = match templates.MainUpdater.setup f r with
    | [] => None
    | l => Some l
    end.
Proof.
  intros Hr Hm. rewrite (GetCodeFragments_Some f r Hr) in Hm.
  injection Hm as <-.
  rewrite lookup_stored_eq.
  destruct (templates.MainUpdater.setup f r) eqn:E; [|reflexivity].
  rewrite lookup_stored_ne by (apply goMarker_inj; discriminate).
  rewrite lookup_stored_ne by (apply goMarker_inj; discriminate).
  reflexivity.
Qed.

(** [GetCodeFragments] never panics: both main paths are Go files. *)
Lemma GetCodeFragments_returns f :
  exists m, templates.MainUpdater.GetCodeFragments f = Returns m.
Proof.
  destruct (templates.MainUpdater.Resource f) as [r|] eqn:Hr.
  - eexists. apply (GetCodeFragments_Some f r Hr).
  - eexists. apply (GetCodeFragments_nil f Hr).
Qed.

(** The slices, by flag. *)
Lemma imports_spec f r :
  templates.MainUpdater.imports f r
  = (if templates.MainUpdater.WireResource f then [apiImport r] else [])
    ++ (if templates.MainUpdater.WireController f then
          [controllerImportText (templates.MainUpdater.IsLegacyLayout f)
             (grouped (templates.MainUpdater.MultiGroup f) r)
             (templates.MainUpdater.Repo f) (resource.PackageName r)
             (resource.Group r)]
        else []).
Proof.
  unfold templates.MainUpdater.imports, grouped, apiImport.
  destruct (templates.MainUpdater.WireResource f),
    (templates.MainUpdater.WireController f),
    (templates.MainUpdater.MultiGroup f),
    (String.eqb (resource.Group r) ""),
    (templates.MainUpdater.IsLegacyLayout f); reflexivity.
Qed.

Lemma setup_spec f r :
  templates.MainUpdater.setup f r
  = (if templates.MainUpdater.WireController f then
       [reconcilerSetup (grouped (templates.MainUpdater.MultiGroup f) r) r]
     else [])
    ++ (if templates.MainUpdater.WireWebhook f then
          [webhookSetup (resource.ImportAlias r) (resource.Kind r)]
        else []).
Proof.
  unfold templates.MainUpdater.setup, grouped, reconcilerSetup, webhookSetup.
  destruct (templates.MainUpdater.WireController f),
    (templates.MainUpdater.WireWebhook f),
    (templates.MainUpdater.MultiGroup f),
    (String.eqb (resource.Group r) ""); reflexivity.
Qed.

Lemma webhookSetup_text alias kind :
  webhookSetup alias kind = webhookSetupText alias kind.
Proof. reflexivity. Qed.

(** ** Controller wiring: the import line *)

(** C1. For a [MainUpdater] with a resource and [WireController] set,
    [GetCodeFragments] returns a map whose entry for the imports marker ends
    in the controller import line of the variant selected by
    ([IsLegacyLayout], [MultiGroup] and a non-empty group): nested
    single-group ["<Repo>/internal/controller"], nested multi-group
    [<PackageName>controller "<Repo>/internal/controller/<Group>"], and in
    the legacy layout the same two lines with [controllers] in place of
    [internal/controller]. The line is preceded by the API import line
    exactly when [WireResource] is set. *)
Theorem controller_import_variants (f : templates.MainUpdater.t)
    (r : resource.Resource) :
  templates.MainUpdater.Resource f = Some r ->
  templates.MainUpdater.WireController f = true ->
  exists (m : machinery.CodeFragmentsMap) (mk : machinery.Marker),
    templates.MainUpdater.GetCodeFragments f = Returns m
    /\ machinery.NewMarkerFor (templates.MainUpdater.GetPath f)
         templates.importMarker = Returns mk
    /\ m !! mk
       = Some ((if templates.MainUpdater.WireResource f
                then [apiImport r] else [])
               ++ [match templates.MainUpdater.IsLegacyLayout f,
                         grouped (templates.MainUpdater.MultiGroup f) r with
                   | false, false =>
                       dq +:+ templates.MainUpdater.Repo f +:+
                       "/internal/controller" +:+ dq +:+ nl
                   | false, true =>
                       resource.PackageName r +:+ "controller " +:+
                       dq +:+ templates.MainUpdater.Repo f +:+
                       "/internal/controller/" +:+ resource.Group r +:+
                       dq +:+ nl
                   | true, false =>
                       dq +:+ templates.MainUpdater.Repo f +:+
                       "/controllers" +:+ dq +:+ nl
                   | true, true =>
                       resource.PackageName r +:+ "controller " +:+
                       dq +:+ templates.MainUpdater.Repo f +:+
                       "/controllers/" +:+ resource.Group r +:+ dq +:+ nl
                   end]).
Proof.
  intros Hr Hc.
  destruct (GetCodeFragments_returns f) as [m Hm].
  exists m, (goMarker templates.importMarker).
  split; [exact Hm|]. split; [apply NewMarkerFor_GetPath|].
  rewrite (lookup_imports f r m Hr Hm), imports_spec, Hc.
  unfold controllerImportText.
  destruct (templates.MainUpdater.WireResource f); reflexivity.
Qed.

Lemma controller_import_variants_witness :
  exists (m : machinery.CodeFragmentsMap) (mk : machinery.Marker),
    templates.MainUpdater.GetCodeFragments (sampleUpdater true true)
    = Returns m
    /\ machinery.NewMarkerFor
         (templates.MainUpdater.GetPath (sampleUpdater true true))
         templates.importMarker = Returns mk
    /\ m !! mk
       = Some ([apiImport guestbook]
               ++ ["webappcontroller " +:+
                   Q "example.com/proj/controllers/web-app" +:+ nl]).
Proof.
  exact (controller_import_variants (sampleUpdater true true) guestbook
           eq_refl eq_refl).
Defined.

(** The four lines of the sample project. *)
Example controller_import_four_variants :
  map (fun '(legacy, multi) =>
         last (templates.MainUpdater.imports (sampleUpdater multi legacy)
                 guestbook))
    [(false, false); (false, true); (true, false); (true, true)]
  = [ Some (Q "example.com/proj/internal/controller" +:+ nl);
      Some ("webappcontroller " +:+
            Q "example.com/proj/internal/controller/web-app" +:+ nl);
      Some (Q "example.com/proj/controllers" +:+ nl);
      Some ("webappcontroller " +:+
            Q "example.com/proj/controllers/web-app" +:+ nl) ].
Proof. vm_compute. reflexivity. Qed.

(** ** Setup fragments: order and conditional emission *)

(** C2. With a resource and both [WireController] and [WireWebhook] set,
    the entry of the setup marker ([builder]) holds exactly two fragments:
    the reconciler setup first, the webhook setup second. *)
Theorem setup_registration_order (f : templates.MainUpdater.t)
    (r : resource.Resource) :
  templates.MainUpdater.Resource f = Some r ->
  templates.MainUpdater.WireController f = true ->
  templates.MainUpdater.WireWebhook f = true ->
  exists (m : machinery.CodeFragmentsMap) (mk : machinery.Marker),
    templates.MainUpdater.GetCodeFragments f = Returns m
    /\ machinery.NewMarkerFor (templates.MainUpdater.GetPath f)
         templates.setupMarker = Returns mk
    /\ machinery.value mk = "builder"
    /\ m !! mk
       = Some [ reconcilerSetup
                  (grouped (templates.MainUpdater.MultiGroup f) r) r;
                webhookSetup (resource.ImportAlias r) (resource.Kind r) ].
Proof.
  intros Hr Hc Hw.
  destruct (GetCodeFragments_returns f) as [m Hm].
  exists m, (goMarker templates.setupMarker).
  split; [exact Hm|]. split; [apply NewMarkerFor_GetPath|].
  split; [reflexivity|].
  rewrite (lookup_setup f r m Hr Hm), setup_spec, Hc, Hw. reflexivity.
Qed.

Lemma setup_registration_order_witness :
  exists (m : machinery.CodeFragmentsMap) (mk : machinery.Marker),
    templates.MainUpdater.GetCodeFragments (sampleUpdater false false)
    = Returns m
    /\ machinery.NewMarkerFor
         (templates.MainUpdater.GetPath (sampleUpdater false false))
         templates.setupMarker = Returns mk
    /\ machinery.value mk = "builder"
    /\ m !! mk
       = Some [ reconcilerSetup false guestbook;
                webhookSetup "webappv1" "Guestbook" ].
Proof.
  exact (setup_registration_order (sampleUpdater false false) guestbook
           eq_refl eq_refl eq_refl).
Defined.

(** A reconciler setup fragment is never a webhook setup fragment: the
    texts part at their fourth character. *)
Lemma reconcilerSetup_not_webhookSetup multi r alias kind :
  reconcilerSetup multi r <> webhookSetup alias kind.
Proof. destruct multi; cbn; discriminate. Qed.

(** C3. With a resource, [WireController] set and [WireWebhook] unset, the
    entry of the setup marker holds the reconciler setup fragment and no
    webhook setup fragment, whatever its alias and kind. *)
Theorem setup_without_webhook (f : templates.MainUpdater.t)
    (r : resource.Resource) :
  templates.MainUpdater.Resource f = Some r ->
  templates.MainUpdater.WireController f = true ->
  templates.MainUpdater.WireWebhook f = false ->
  exists (m : machinery.CodeFragmentsMap) (mk : machinery.Marker)
         (l : list string),
    templates.MainUpdater.GetCodeFragments f = Returns m
    /\ machinery.NewMarkerFor (templates.MainUpdater.GetPath f)
         templates.setupMarker = Returns mk
    /\ m !! mk = Some l
    /\ reconcilerSetup (grouped (templates.MainUpdater.MultiGroup f) r) r ∈ l
    /\ forall alias kind, webhookSetup alias kind ∉ l.
Proof.
  intros Hr Hc Hw.
  destruct (GetCodeFragments_returns f) as [m Hm].
  exists m, (goMarker templates.setupMarker),
    [reconcilerSetup (grouped (templates.MainUpdater.MultiGroup f) r) r].
  split; [exact Hm|]. split; [apply NewMarkerFor_GetPath|]. split.
  - rewrite (lookup_setup f r m Hr Hm), setup_spec, Hc, Hw. reflexivity.
  - split; [apply list_elem_of_singleton; reflexivity|].
    intros alias kind Hin. apply list_elem_of_singleton in Hin.
    symmetry in Hin. exact (reconcilerSetup_not_webhookSetup _ _ _ _ Hin).
Qed.

Lemma setup_without_webhook_witness :
  exists (m : machinery.CodeFragmentsMap) (mk : machinery.Marker)
         (l : list string),
    templates.MainUpdater.GetCodeFragments
      (templates.MainUpdater.mk "example.com/proj" true (Some guestbook)
         true true false false) = Returns m
    /\ machinery.NewMarkerFor "cmd/main.go" templates.setupMarker = Returns mk
    /\ m !! mk = Some l
    /\ reconcilerSetup true guestbook ∈ l
    /\ forall alias kind, webhookSetup alias kind ∉ l.
Proof.
  exact (setup_without_webhook
           (templates.MainUpdater.mk "example.com/proj" true (Some guestbook)
              true true false false) guestbook eq_refl eq_refl eq_refl).
Defined.

(** C4. [GetCodeFragments] always returns a map, and the map has no entry
    for a marker whose flags are all unset: none at all without a
    resource, none for the imports marker when [WireResource] and
    [WireController] are unset, none for the scheme marker when
    [WireResource] is unset, none for the setup marker when
    [WireController] and [WireWebhook] are unset. *)
Theorem disabled_marker_has_no_entry (f : templates.MainUpdater.t) :
  exists (m : machinery.CodeFragmentsMap) (mi ms mb : machinery.Marker),
    templates.MainUpdater.GetCodeFragments f = Returns m
    /\ templates.MainUpdater.GetMarkers f = Returns [mi; ms; mb]
    /\ (templates.MainUpdater.Resource f = None -> m = ∅)
    /\ (templates.MainUpdater.WireResource f = false ->
        templates.MainUpdater.WireController f = false -> m !! mi = None)
    /\ (templates.MainUpdater.WireResource f = false -> m !! ms = None)
    /\ (templates.MainUpdater.WireController f = false ->
        templates.MainUpdater.WireWebhook f = false -> m !! mb = None).
Proof.
  destruct (GetCodeFragments_returns f) as [m Hm].
  exists m, (goMarker templates.importMarker),
    (goMarker templates.addSchemeMarker), (goMarker templates.setupMarker).
  split; [exact Hm|]. split.
  { unfold templates.MainUpdater.GetMarkers.
    rewrite !NewMarkerFor_GetPath. reflexivity. }
  destruct (templates.MainUpdater.Resource f) as [r|] eqn:Hr.
  - split; [discriminate|]. split; [|split].
    + intros Hwr Hwc. rewrite (lookup_imports f r m Hr Hm), imports_spec.
      rewrite Hwr, Hwc. reflexivity.
    + intros Hwr. rewrite (lookup_addScheme f r m Hr Hm).
      unfold templates.MainUpdater.addScheme. rewrite Hwr. reflexivity.
    + intros Hwc Hww. rewrite (lookup_setup f r m Hr Hm), setup_spec.
      rewrite Hwc, Hww. reflexivity.
  - rewrite (GetCodeFragments_nil f Hr) in Hm. injection Hm as <-.
    split; [reflexivity|]. split; [|split]; intros; apply lookup_empty.
Qed.

Lemma disabled_marker_has_no_entry_witness :
  exists (m : machinery.CodeFragmentsMap) (mi ms mb : machinery.Marker),
    templates.MainUpdater.GetCodeFragments
      (templates.MainUpdater.mk "example.com/proj" true (Some guestbook)
         false false true false) = Returns m
    /\ templates.MainUpdater.GetMarkers
         (templates.MainUpdater.mk "example.com/proj" true (Some guestbook)
            false false true false) = Returns [mi; ms; mb]
    /\ (Some guestbook = None -> m = ∅)
    /\ (false = false -> false = false -> m !! mi = None)
    /\ (false = false -> m !! ms = None)
    /\ (false = false -> true = false -> m !! mb = None).
Proof.
  exact (disabled_marker_has_no_entry
           (templates.MainUpdater.mk "example.com/proj" true (Some guestbook)
              false false true false)).
Defined.

(** With every flag unset, and without a resource, the map is empty. *)
Example no_flag_no_fragment :
  templates.MainUpdater.GetCodeFragments
    (templates.MainUpdater.mk "example.com/proj" true (Some guestbook)
       false false false false) = Returns ∅
  /\ templates.MainUpdater.GetCodeFragments
       (templates.MainUpdater.mk "example.com/proj" true None
          true true true false) = Returns ∅.
Proof. split; reflexivity. Qed.

(** ** Webhook wiring *)

(** C7. With a resource and [WireWebhook] set, the webhook setup fragment
    is the text [webhookSetupText] of the resource's import alias and kind,
    and stays the same when [MultiGroup] and [IsLegacyLayout] are replaced
    by any other values. *)
Theorem webhook_fragment_invariant (f : templates.MainUpdater.t)
    (r : resource.Resource) (multiGroup legacy : bool) :
  templates.MainUpdater.Resource f = Some r ->
  templates.MainUpdater.WireWebhook f = true ->
  exists m m' : machinery.CodeFragmentsMap,
    templates.MainUpdater.GetCodeFragments f = Returns m
    /\ templates.MainUpdater.GetCodeFragments (withFlags multiGroup legacy f)
       = Returns m'
    /\ webhookFragment m
       = Some (webhookSetupText (resource.ImportAlias r) (resource.Kind r))
    /\ webhookFragment m' = webhookFragment m.
Proof.
  intros Hr Hw.
  assert (Hall : forall g m,
            templates.MainUpdater.Resource g = Some r ->
            templates.MainUpdater.WireWebhook g = true ->
            templates.MainUpdater.GetCodeFragments g = Returns m ->
            webhookFragment m
            = Some (webhookSetupText (resource.ImportAlias r)
                      (resource.Kind r))).
  { intros g m Hgr Hgw Hm. unfold webhookFragment.
    rewrite (lookup_setup g r m Hgr Hm), setup_spec, Hgw.
    destruct (templates.MainUpdater.WireController g); reflexivity. }
  destruct (GetCodeFragments_returns f) as [m Hm].
  destruct (GetCodeFragments_returns (withFlags multiGroup legacy f))
    as [m' Hm'].
  exists m, m'. split; [exact Hm|]. split; [exact Hm'|].
  rewrite (Hall f m Hr Hw Hm).
  rewrite (Hall (withFlags multiGroup legacy f) m' Hr Hw Hm').
  split; reflexivity.
Qed.

Lemma webhook_fragment_invariant_witness :
  exists m m' : machinery.CodeFragmentsMap,
    templates.MainUpdater.GetCodeFragments (sampleUpdater false false)
    = Returns m
    /\ templates.MainUpdater.GetCodeFragments (sampleUpdater true true)
       = Returns m'
    /\ webhookFragment m = Some (webhookSetupText "webappv1" "Guestbook")
    /\ webhookFragment m' = webhookFragment m.
Proof.
  exact (webhook_fragment_invariant (sampleUpdater false false) guestbook
           true true eq_refl eq_refl).
Defined.

(** C10. [GetIfExistsAction] of a [MainUpdater] is [OverwriteFile] whatever
    its fields hold: never [SkipFile], never [Error]. *)
Theorem MainUpdater_always_overwrites (f : templates.MainUpdater.t) :
  templates.MainUpdater.GetIfExistsAction f = machinery.OverwriteFile
  /\ templates.MainUpdater.GetIfExistsAction f <> machinery.SkipFile
  /\ templates.MainUpdater.GetIfExistsAction f <> machinery.Error.
Proof. repeat split; discriminate. Qed.

(** ** Templates: path and existence policy *)

(** Without a resource [Types.SetTemplateDefaults] panics: it reads
    [f.Resource] on every path. *)
Lemma Types_SetTemplateDefaults_nil (f : api.Types.t) :
  api.Types.Resource f = None ->
  returns (api.Types.SetTemplateDefaults f) = false.
Proof.
  destruct f as [[p a b] mg bp res force]. simpl. intros ->.
  unfold api.Types.SetTemplateDefaults. cbn.
  destruct (String.eqb p ""), mg; reflexivity.
Qed.

(** C5. For a [Types] template with an empty path and a resource,
    [SetTemplateDefaults] returns with the path
    [api/<version>/<kind>_types.go] when [MultiGroup] is unset or the group
    is empty (no group segment, not an empty one), and
    [api/<group>/<version>/<kind>_types.go] otherwise; [<kind>] is the kind
    in lower case. *)
Theorem Types_default_path (f : api.Types.t) (r : resource.Resource) :
  api.Types.Path f = "" ->
  api.Types.Resource f = Some r ->
  exists (f' : api.Types.t) (out : list string),
    api.Types.SetTemplateDefaults f = Returns (f', None, out)
    /\ api.Types.Path f'
       = if negb (api.Types.MultiGroup f)
            || String.eqb (resource.Group r) ""
         then
           "api/" +:+ resource.Version r +:+ "/" +:+
           gostrings.ToLower (resource.Kind r) +:+ "_types.go"
         else
           "api/" +:+ resource.Group r +:+ "/" +:+ resource.Version r +:+
           "/" +:+ gostrings.ToLower (resource.Kind r) +:+ "_types.go".
Proof.
  destruct f as [[p a b] mg bp res force]. cbn. intros -> ->.
  unfold api.Types.SetTemplateDefaults. cbn.
  destruct mg; cbn; [destruct (String.eqb (resource.Group r) ""); cbn|];
    destruct force; eexists _, _; split; reflexivity.
Qed.

Lemma Types_default_path_witness :
  exists (f' : api.Types.t) (out : list string),
    api.Types.SetTemplateDefaults
      (api.Types.mk machinery.TemplateMixin_zero true "" (Some guestbook)
         false)
    = Returns (f', None, out)
    /\ api.Types.Path f' = "api/web-app/v1/guestbook_types.go".
Proof.
  exact (Types_default_path
           (api.Types.mk machinery.TemplateMixin_zero true ""
              (Some guestbook) false) guestbook eq_refl eq_refl).
Defined.

(** C6. [SetTemplateDefaults] of a [Types] template (with its resource)
    and of a [HelmIgnore] template sets [IfExistsAction] to
    [OverwriteFile] when [Force] is set; when it is unset [Types] gets
    [Error] and [HelmIgnore] gets [SkipFile]. *)
Theorem Force_existence_policy (f : api.Types.t) (r : resource.Resource)
    (h : charts.HelmIgnore.t) :
  api.Types.Resource f = Some r ->
  (exists (f' : api.Types.t) (out : list string),
      api.Types.SetTemplateDefaults f = Returns (f', None, out)
      /\ api.Types.IfExistsAction f'
         = if api.Types.Force f then machinery.OverwriteFile
           else machinery.Error)
  /\ (exists h' : charts.HelmIgnore.t,
         charts.HelmIgnore.SetTemplateDefaults h = (h', None)
         /\ charts.HelmIgnore.IfExistsAction h'
            = if charts.HelmIgnore.Force h then machinery.OverwriteFile
              else machinery.SkipFile).
Proof.
  intros Hr. split.
  - destruct f as [[p a b] mg bp res force]. cbn in Hr. subst res.
    unfold api.Types.SetTemplateDefaults. cbn.
    destruct (String.eqb p ""); cbn;
      [destruct mg; cbn;
       [destruct (String.eqb (resource.Group r) ""); cbn|]|];
      destruct force; eexists _, _; split; reflexivity.
  - destruct h as [[p a b] pn force].
    unfold charts.HelmIgnore.SetTemplateDefaults. cbn.
    destruct (String.eqb p ""), force; eexists; split; reflexivity.
Qed.

Lemma Force_existence_policy_witness :
  (exists (f' : api.Types.t) (out : list string),
      api.Types.SetTemplateDefaults
        (api.Types.mk machinery.TemplateMixin_zero false "" (Some guestbook)
           false)
      = Returns (f', None, out)
      /\ api.Types.IfExistsAction f' = machinery.Error)
  /\ (exists h' : charts.HelmIgnore.t,
         charts.HelmIgnore.SetTemplateDefaults
           (charts.HelmIgnore.mk machinery.TemplateMixin_zero "proj" false)
         = (h', None)
         /\ charts.HelmIgnore.IfExistsAction h' = machinery.SkipFile).
Proof.
  exact (Force_existence_policy
           (api.Types.mk machinery.TemplateMixin_zero false ""
              (Some guestbook) false)
           guestbook
           (charts.HelmIgnore.mk machinery.TemplateMixin_zero "proj" false)
           eq_refl).
Defined.

(** ** The markers of the entry point *)



(** A path that is no Go or YAML file has no marker: the template panics. *)
Example Main_unknown_extension :
  returns
    (templates.Main.SetTemplateDefaults
       (templates.Main.mk (machinery.mkTemplateMixin "cmd/main.txt"
                             machinery.SkipFile "")
          "" "example.com" "example.com/proj" false))
  = false.
Proof. reflexivity. Qed.

(** The sentinels, as written into the file. *)
Example marker_sentinels :
  map machinery.Marker_String
    [goMarker "imports"; goMarker "scheme"; goMarker "builder"]
  = [ "//+kubebuilder:scaffold:imports";
      "//+kubebuilder:scaffold:scheme";
      "//+kubebuilder:scaffold:builder" ].
Proof. reflexivity. Qed.

(** ** The webhook scaffolder *)

(** C8. [Scaffold] stops at the first failure, but the error it returns
    for a failed execution does not wrap the failure. If [UpdateResource]
    fails with [e], the error returned is [error updating resource: <e>]
    and wraps [e] (built with [%w]), and no builder is handed to
    [Execute]. If [UpdateResource] succeeds and [Execute] of the four
    builders fails with [e], the error returned has the message
    [error scaffolding helm webhook manifests: <e>] and wraps nothing
    (built with [%v]): [errors.Unwrap] of it is nil, not [e]. Nil is
    returned exactly when both calls returned nil. *)
Theorem Scaffold_fails_fast {Config Filesystem : Type}
    (UpdateResource : Config -> resource.Resource -> Config * error)
    (Execute : Filesystem -> Config -> resource.Resource ->
               list scaffolds.Builder ->
               Filesystem * Config * resource.Resource * error)
    (s : scaffolds.webhookScaffolder) :
  let '(s', trace, ret) := scaffolds.Scaffold UpdateResource Execute s in
  let updated := UpdateResource (scaffolds.config s) (scaffolds.resource_ s) in
  let run :=
    Execute (scaffolds.fs s) updated.1 (scaffolds.resource_ s)
      (webhookBuilders (scaffolds.force s)) in
  (forall e : Err,
      updated.2 = Some e ->
      exists r : Err,
        ret = Some r
        /\ Err_Error r = "error updating resource: " +:+ Err_Error e
        /\ Unwrap r = Some e
        /\ scaffolds.executed trace = [])
  /\ (forall e : Err,
         updated.2 = None -> run.2 = Some e ->
         exists r : Err,
           ret = Some r
           /\ Err_Error r
              = "error scaffolding helm webhook manifests: " +:+ Err_Error e
           /\ Unwrap r = None
           /\ Unwrap r <> Some e
           /\ scaffolds.executed trace = webhookBuilders (scaffolds.force s))
  /\ (ret = None <-> updated.2 = None /\ run.2 = None).
Proof.
  unfold scaffolds.Scaffold, webhookBuilders.
  destruct (UpdateResource (scaffolds.config s) (scaffolds.resource_ s))
    as [config' [e|]] eqn:Hu; cbn.
  - split; [|split].
    + intros e' [= <-]. eexists. repeat split.
    + intros e' [=].
    + split; [intros [=]|intros [[=] _]].
  - destruct (Execute (scaffolds.fs s) config' (scaffolds.resource_ s) _)
      as [[[fs' config''] resource'] [e|]] eqn:He; cbn.
    + split; [|split].
      * intros e' [=].
      * intros e' _ [= <-]. eexists.
        split; [reflexivity|]. split; [reflexivity|].
        split; [reflexivity|]. split; [discriminate|reflexivity].
      * split; [intros [=]|intros [_ [=]]].
    + split; [|split].
      * intros e' [=].
      * intros e' _ [=].
      * split; [intros _; split; reflexivity|reflexivity].
Qed.

(** The failing run: the update succeeds, the execution finds a file in
    its way. *)
Lemma Scaffold_fails_fast_witness :
  let '(s', trace, ret) :=
    scaffolds.Scaffold sampleUpdateResource sampleExecute
      (sampleScaffolder "Guestbook" ["Chart.yaml"]) in
  let updated :=
    sampleUpdateResource
      (scaffolds.config (sampleScaffolder "Guestbook" ["Chart.yaml"]))
      (scaffolds.resource_ (sampleScaffolder "Guestbook" ["Chart.yaml"])) in
  let run :=
    sampleExecute
      (scaffolds.fs (sampleScaffolder "Guestbook" ["Chart.yaml"])) updated.1
      (scaffolds.resource_ (sampleScaffolder "Guestbook" ["Chart.yaml"]))
      (webhookBuilders
         (scaffolds.force (sampleScaffolder "Guestbook" ["Chart.yaml"]))) in
  (forall e : Err,
      updated.2 = Some e ->
      exists r : Err,
        ret = Some r
        /\ Err_Error r = "error updating resource: " +:+ Err_Error e
        /\ Unwrap r = Some e
        /\ scaffolds.executed trace = [])
  /\ (forall e : Err,
         updated.2 = None -> run.2 = Some e ->
         exists r : Err,
           ret = Some r
           /\ Err_Error r
              = "error scaffolding helm webhook manifests: " +:+ Err_Error e
           /\ Unwrap r = None
           /\ Unwrap r <> Some e
           /\ scaffolds.executed trace
              = webhookBuilders
                  (scaffolds.force
                     (sampleScaffolder "Guestbook" ["Chart.yaml"])))
  /\ (ret = None <-> updated.2 = None /\ run.2 = None).
Proof.
  exact (Scaffold_fails_fast sampleUpdateResource sampleExecute
           (sampleScaffolder "Guestbook" ["Chart.yaml"])).
Defined.

(** The three outcomes of a run on the sample project: the update fails,
    the execution fails, both succeed. Only the first error wraps its
    cause. *)
Example Scaffold_samples :
  map (fun s =>
         let '(s', trace, ret) :=
           scaffolds.Scaffold sampleUpdateResource sampleExecute s in
         (ret, Unwrap <$> ret, scaffolds.executed trace))
    [ sampleScaffolder "" [];
      sampleScaffolder "Guestbook" ["Chart.yaml"];
      sampleScaffolder "Guestbook" [] ]
  = [ (Some (mkErr "error updating resource: kind cannot be empty"
               (Some (mkErr "kind cannot be empty" None))),
       Some (Some (mkErr "kind cannot be empty" None)),
       []);
      (Some (mkErr "error scaffolding helm webhook manifests: file already exists: Chart.yaml"
               None),
       Some None,
       webhookBuilders false);
      (None, None, webhookBuilders false) ].
Proof. reflexivity. Qed.

(** * Further properties *)

(** ** Texts *)

Lemma append_assoc (a b c : string) : (a +:+ b) +:+ c = a +:+ b +:+ c.
Proof.
  induction a as [|x a IH]; [reflexivity|].
  change (String x ((a +:+ b) +:+ c) = String x (a +:+ b +:+ c)).
  f_equal. exact IH.
Qed.

Lemma last_char_app (a b : string) :
  last_char (a +:+ b)
  = match last_char b with Some d => Some d | None => last_char a end.
Proof.
  induction a as [|x a IH].
  - change (EmptyString +:+ b) with b. cbn. destruct (last_char b); reflexivity.
  - change (String x a +:+ b) with (String x (a +:+ b)).
    cbn [last_char]. rewrite IH.
    destruct (last_char b), (last_char a); reflexivity.
Qed.

(** The fragment texts written out. *)
Lemma apiImport_text r :
  apiImport r
  = resource.ImportAlias r +:+ " " +:+ dq +:+ resource.Path r +:+ dq +:+ nl.
Proof. reflexivity. Qed.

Lemma addscheme_text alias :
  fmt.Sprintf templates.addschemeCodeFragment [alias]
  = "utilruntime.Must(" +:+ alias +:+ ".AddToScheme(scheme))" +:+ nl.
Proof. reflexivity. Qed.

Lemma reconcilerSetup_text multi r :
  reconcilerSetup multi r
  = reconcilerSetupText (controllerQualifier multi r) (resource.Kind r).
Proof.
  destruct multi; [|reflexivity].
  unfold reconcilerSetupText, controllerQualifier.
  rewrite append_assoc. reflexivity.
Qed.

(** Every fragment text ends in a line feed, whatever is inserted. *)
Lemma apiImport_newline r : last_char (apiImport r) = Some "010"%char.
Proof. rewrite apiImport_text. repeat rewrite last_char_app. reflexivity. Qed.

Lemma controllerImportText_newline legacy multi repo packageName group :
  last_char (controllerImportText legacy multi repo packageName group)
  = Some "010"%char.
Proof.
  destruct legacy, multi; unfold controllerImportText;
    repeat rewrite last_char_app; reflexivity.
Qed.

Lemma addscheme_newline alias :
  last_char (fmt.Sprintf templates.addschemeCodeFragment [alias])
  = Some "010"%char.
Proof. rewrite addscheme_text. repeat rewrite last_char_app. reflexivity. Qed.

Lemma reconcilerSetup_newline multi r :
  last_char (reconcilerSetup multi r) = Some "010"%char.
Proof.
  rewrite reconcilerSetup_text. unfold reconcilerSetupText.
  repeat rewrite last_char_app. reflexivity.
Qed.

Lemma webhookSetup_newline alias kind :
  last_char (webhookSetup alias kind) = Some "010"%char.
Proof.
  rewrite webhookSetup_text. unfold webhookSetupText.
  repeat rewrite last_char_app. reflexivity.
Qed.

(** ** The entries of the fragments map *)

Lemma addScheme_spec f r :
  templates.MainUpdater.addScheme f r
  = if templates.MainUpdater.WireResource f then
      [fmt.Sprintf templates.addschemeCodeFragment [resource.ImportAlias r]]
    else [].
Proof.
  unfold templates.MainUpdater.addScheme.
  destruct (templates.MainUpdater.WireResource f); reflexivity.
Qed.

(** An entry of the map is one of the three slices, and is not empty. *)
Lemma lookup_fragments_inv f r m mk l :
  templates.MainUpdater.Resource f = Some r ->
  templates.MainUpdater.GetCodeFragments f = Returns m ->
  m !! mk = Some l ->
  l <> []
  /\ ((mk = goMarker templates.importMarker
       /\ l = templates.MainUpdater.imports f r)
      \/ (mk = goMarker templates.addSchemeMarker
          /\ l = templates.MainUpdater.addScheme f r)
      \/ (mk = goMarker templates.setupMarker
          /\ l = templates.MainUpdater.setup f r)).
Proof.
  intros Hr Hm Hl.
  destruct (decide (mk = goMarker templates.importMarker)) as [->|Hi].
  { rewrite (lookup_imports f r m Hr Hm) in Hl.
    destruct (templates.MainUpdater.imports f r) eqn:E; [discriminate|].
    injection Hl as <-. split; [discriminate|]. left. done. }
  destruct (decide (mk = goMarker templates.addSchemeMarker)) as [->|Hs].
  { rewrite (lookup_addScheme f r m Hr Hm) in Hl.
    destruct (templates.MainUpdater.addScheme f r) eqn:E; [discriminate|].
    injection Hl as <-. split; [discriminate|]. right; left. done. }
  destruct (decide (mk = goMarker templates.setupMarker)) as [->|Hb].
  { rewrite (lookup_setup f r m Hr Hm) in Hl.
    destruct (templates.MainUpdater.setup f r) eqn:E; [discriminate|].
    injection Hl as <-. split; [discriminate|]. right; right. done. }
  rewrite (GetCodeFragments_Some f r Hr) in Hm. injection Hm as <-.
  rewrite !lookup_stored_ne, lookup_empty in Hl by congruence.
  discriminate.
Qed.

Lemma GetMarkers_go f :
  templates.MainUpdater.GetMarkers f
  = Returns [ goMarker templates.importMarker;
              goMarker templates.addSchemeMarker;
              goMarker templates.setupMarker ].
Proof.
  unfold templates.MainUpdater.GetMarkers.
  rewrite !NewMarkerFor_GetPath. reflexivity.
Qed.

(** X1. Every entry of the map [GetCodeFragments] returns belongs to a
    marker [GetMarkers] declares and holds at least one fragment: the code
    stores no empty slice and no marker of its own. *)
Theorem entries_are_declared_and_not_empty (f : templates.MainUpdater.t) :
  exists (m : machinery.CodeFragmentsMap) (ms : list machinery.Marker),
    templates.MainUpdater.GetCodeFragments f = Returns m
    /\ templates.MainUpdater.GetMarkers f = Returns ms
    /\ forall (mk : machinery.Marker) (l : list string),
         m !! mk = Some l -> mk ∈ ms /\ l <> [].
Proof.
  destruct (GetCodeFragments_returns f) as [m Hm].
  exists m, [ goMarker templates.importMarker;
              goMarker templates.addSchemeMarker;
              goMarker templates.setupMarker ].
  split; [exact Hm|]. split; [apply GetMarkers_go|].
  intros mk l Hl.
  destruct (templates.MainUpdater.Resource f) as [r|] eqn:Hr.
  - destruct (lookup_fragments_inv f r m mk l Hr Hm Hl)
      as [Hne [[-> _]|[[-> _]|[-> _]]]]; (split; [|exact Hne]).
    + apply list_elem_of_here.
    + apply list_elem_of_further, list_elem_of_here.
    + do 2 apply list_elem_of_further. apply list_elem_of_here.
  - rewrite (GetCodeFragments_nil f Hr) in Hm. injection Hm as <-.
    rewrite lookup_empty in Hl. discriminate.
Qed.

(** X2. With a resource, a marker has an entry exactly when one of the
    flags that gate it is set: [WireResource] or [WireController] for the
    imports marker, [WireResource] for the scheme marker, [WireController]
    or [WireWebhook] for the setup marker. *)
Theorem entry_present_iff_wired (f : templates.MainUpdater.t)
    (r : resource.Resource) :
  templates.MainUpdater.Resource f = Some r ->
  exists (m : machinery.CodeFragmentsMap) (mi ms mb : machinery.Marker),
    templates.MainUpdater.GetCodeFragments f = Returns m
    /\ templates.MainUpdater.GetMarkers f = Returns [mi; ms; mb]
    /\ (is_Some (m !! mi) <->
        templates.MainUpdater.WireResource f = true
        \/ templates.MainUpdater.WireController f = true)
    /\ (is_Some (m !! ms) <-> templates.MainUpdater.WireResource f = true)
    /\ (is_Some (m !! mb) <->
        templates.MainUpdater.WireController f = true
        \/ templates.MainUpdater.WireWebhook f = true).
Proof.
  intros Hr. destruct (GetCodeFragments_returns f) as [m Hm].
  exists m, (goMarker templates.importMarker),
    (goMarker templates.addSchemeMarker), (goMarker templates.setupMarker).
  split; [exact Hm|]. split; [apply GetMarkers_go|].
  rewrite (lookup_imports f r m Hr Hm), (lookup_addScheme f r m Hr Hm),
    (lookup_setup f r m Hr Hm), imports_spec, addScheme_spec, setup_spec.
  destruct (templates.MainUpdater.WireResource f),
    (templates.MainUpdater.WireController f),
    (templates.MainUpdater.WireWebhook f); cbn;
    (split; [|split]); split;
    (solve [ intros; eauto | intros [? [=]] | intros [[=]|[=]] | intros [=] ]).
Qed.

Lemma entry_present_iff_wired_witness :
  exists (m : machinery.CodeFragmentsMap) (mi ms mb : machinery.Marker),
    templates.MainUpdater.GetCodeFragments
      (templates.MainUpdater.mk "example.com/proj" false (Some guestbook)
         false false true false) = Returns m
    /\ templates.MainUpdater.GetMarkers
         (templates.MainUpdater.mk "example.com/proj" false (Some guestbook)
            false false true false) = Returns [mi; ms; mb]
    /\ (is_Some (m !! mi) <-> false = true \/ false = true)
    /\ (is_Some (m !! ms) <-> false = true)
    /\ (is_Some (m !! mb) <-> false = true \/ true = true).
Proof.
  exact (entry_present_iff_wired
           (templates.MainUpdater.mk "example.com/proj" false (Some guestbook)
              false false true false) guestbook eq_refl).
Defined.

(** X3. Every fragment of every entry ends in a line feed, whatever the
    repository, the resource and the flags: fragments are whole lines. *)
Theorem fragments_end_in_newline (f : templates.MainUpdater.t) :
  exists m : machinery.CodeFragmentsMap,
    templates.MainUpdater.GetCodeFragments f = Returns m
    /\ forall (mk : machinery.Marker) (l : list string) (s : string),
         m !! mk = Some l -> s ∈ l -> last_char s = Some "010"%char.
Proof.
  destruct (GetCodeFragments_returns f) as [m Hm].
  exists m. split; [exact Hm|]. intros mk l s Hl Hs.
  destruct (templates.MainUpdater.Resource f) as [r|] eqn:Hr.
  - destruct (lookup_fragments_inv f r m mk l Hr Hm Hl)
      as [_ [[_ ->]|[[_ ->]|[_ ->]]]].
    + rewrite imports_spec in Hs. apply elem_of_app in Hs as [Hs|Hs].
      * destruct (templates.MainUpdater.WireResource f);
          [|by apply elem_of_nil in Hs].
        apply list_elem_of_singleton in Hs as ->. apply apiImport_newline.
      * destruct (templates.MainUpdater.WireController f);
          [|by apply elem_of_nil in Hs].
        apply list_elem_of_singleton in Hs as ->.
        apply controllerImportText_newline.
    + rewrite addScheme_spec in Hs.
      destruct (templates.MainUpdater.WireResource f);
        [|by apply elem_of_nil in Hs].
      apply list_elem_of_singleton in Hs as ->. apply addscheme_newline.
    + rewrite setup_spec in Hs. apply elem_of_app in Hs as [Hs|Hs].
      * destruct (templates.MainUpdater.WireController f);
          [|by apply elem_of_nil in Hs].
        apply list_elem_of_singleton in Hs as ->.
        apply reconcilerSetup_newline.
      * destruct (templates.MainUpdater.WireWebhook f);
          [|by apply elem_of_nil in Hs].
        apply list_elem_of_singleton in Hs as ->. apply webhookSetup_newline.
  - rewrite (GetCodeFragments_nil f Hr) in Hm. injection Hm as <-.
    rewrite lookup_empty in Hl. discriminate.
Qed.

(** The three entries, with or without a resource. *)
Lemma entries_of f m :
  templates.MainUpdater.GetCodeFragments f = Returns m ->
  m !! goMarker templates.importMarker
  = match templates.MainUpdater.Resource f with
    | Some r =>
        match templates.MainUpdater.imports f r with
        | [] => None
        | l => Some l
        end
    | None => None
    end
  /\ m !! goMarker templates.addSchemeMarker
     = match templates.MainUpdater.Resource f with
       | Some r =>
           match templates.MainUpdater.addScheme f r with
           | [] => None
           | l => Some l
           end
       | None => None
       end
  /\ m !! goMarker templates.setupMarker
     = match templates.MainUpdater.Resource f with
       | Some r =>
           match templates.MainUpdater.setup f r with
           | [] => None
           | l => Some l
           end
       | None => None
       end.
Proof.
  intros Hm. destruct (templates.MainUpdater.Resource f) as [r|] eqn:Hr.
  - rewrite (lookup_imports f r m Hr Hm), (lookup_addScheme f r m Hr Hm),
      (lookup_setup f r m Hr Hm). done.
  - rewrite (GetCodeFragments_nil f Hr) in Hm. injection Hm as <-.
    rewrite !lookup_empty. done.
Qed.

(** ** Resource and controller wiring: the texts *)

(** X4. With a resource and [WireResource] set, the imports entry starts
    with the line [<alias> "<path>"] of the resource's import alias and API
    package path, and the scheme entry is the single line
    [utilruntime.Must(<alias>.AddToScheme(scheme))]. *)
Theorem resource_wiring_text (f : templates.MainUpdater.t)
    (r : resource.Resource) :
  templates.MainUpdater.Resource f = Some r ->
  templates.MainUpdater.WireResource f = true ->
  exists (m : machinery.CodeFragmentsMap) (mi ms : machinery.Marker)
         (l : list string),
    templates.MainUpdater.GetCodeFragments f = Returns m
    /\ machinery.NewMarkerFor (templates.MainUpdater.GetPath f)
         templates.importMarker = Returns mi
    /\ machinery.NewMarkerFor (templates.MainUpdater.GetPath f)
         templates.addSchemeMarker = Returns ms
    /\ m !! mi = Some l
    /\ head l
       = Some (resource.ImportAlias r +:+ " " +:+
               dq +:+ resource.Path r +:+ dq +:+ nl)
    /\ m !! ms
       = Some ["utilruntime.Must(" +:+ resource.ImportAlias r +:+
               ".AddToScheme(scheme))" +:+ nl].
Proof.
  intros Hr Hw. destruct (GetCodeFragments_returns f) as [m Hm].
  exists m, (goMarker templates.importMarker),
    (goMarker templates.addSchemeMarker),
    (templates.MainUpdater.imports f r).
  split; [exact Hm|]. split; [apply NewMarkerFor_GetPath|].
  split; [apply NewMarkerFor_GetPath|].
  rewrite (lookup_imports f r m Hr Hm), (lookup_addScheme f r m Hr Hm).
  rewrite imports_spec, addScheme_spec, Hw.
  split; [reflexivity|]. split; reflexivity.
Qed.

Lemma resource_wiring_text_witness :
  exists (m : machinery.CodeFragmentsMap) (mi ms : machinery.Marker)
         (l : list string),
    templates.MainUpdater.GetCodeFragments (sampleUpdater false false)
    = Returns m
    /\ machinery.NewMarkerFor "cmd/main.go" templates.importMarker
       = Returns mi
    /\ machinery.NewMarkerFor "cmd/main.go" templates.addSchemeMarker
       = Returns ms
    /\ m !! mi = Some l
    /\ head l
       = Some ("webappv1 " +:+ Q "example.com/proj/api/web-app/v1" +:+ nl)
    /\ m !! ms
       = Some ["utilruntime.Must(webappv1.AddToScheme(scheme))" +:+ nl].
Proof.
  exact (resource_wiring_text (sampleUpdater false false) guestbook
           eq_refl eq_refl).
Defined.

(** X5. With a resource and [WireController] set, the setup entry starts
    with the reconciler setup text, which names the controller package
    [controller] in a single-group project and [<PackageName>controller]
    in a multi-group one; in the multi-group case this is the alias under
    which the imports entry imports the package. *)
Theorem reconciler_setup_qualifier (f : templates.MainUpdater.t)
    (r : resource.Resource) :
  templates.MainUpdater.Resource f = Some r ->
  templates.MainUpdater.WireController f = true ->
  exists (m : machinery.CodeFragmentsMap) (li lb : list string)
         (qualifier : string),
    templates.MainUpdater.GetCodeFragments f = Returns m
    /\ qualifier
       = (if grouped (templates.MainUpdater.MultiGroup f) r
          then resource.PackageName r +:+ "controller" else "controller")
    /\ m !! goMarker templates.setupMarker = Some lb
    /\ head lb = Some (reconcilerSetupText qualifier (resource.Kind r))
    /\ m !! goMarker templates.importMarker = Some li
    /\ (grouped (templates.MainUpdater.MultiGroup f) r = true ->
        exists path : string,
          last li = Some (qualifier +:+ " " +:+ dq +:+ path +:+ dq +:+ nl)).
Proof.
  intros Hr Hc. destruct (GetCodeFragments_returns f) as [m Hm].
  exists m, (templates.MainUpdater.imports f r),
    (templates.MainUpdater.setup f r),
    (controllerQualifier (grouped (templates.MainUpdater.MultiGroup f) r) r).
  split; [exact Hm|]. split; [reflexivity|].
  rewrite (lookup_imports f r m Hr Hm), (lookup_setup f r m Hr Hm).
  rewrite imports_spec, setup_spec, Hc.
  split; [reflexivity|]. split.
  { cbn [app head]. by rewrite reconcilerSetup_text. }
  split.
  { destruct (templates.MainUpdater.WireResource f); reflexivity. }
  intros Hg. rewrite Hg. rewrite last_snoc. unfold controllerImportText.
  destruct (templates.MainUpdater.IsLegacyLayout f).
  - exists (templates.MainUpdater.Repo f +:+ "/controllers/" +:+
            resource.Group r).
    unfold controllerQualifier. rewrite !append_assoc. reflexivity.
  - exists (templates.MainUpdater.Repo f +:+ "/internal/controller/" +:+
            resource.Group r).
    unfold controllerQualifier. rewrite !append_assoc. reflexivity.
Qed.

Lemma reconciler_setup_qualifier_witness :
  exists (m : machinery.CodeFragmentsMap) (li lb : list string)
         (qualifier : string),
    templates.MainUpdater.GetCodeFragments (sampleUpdater true false)
    = Returns m
    /\ qualifier = "webappcontroller"
    /\ m !! goMarker templates.setupMarker = Some lb
    /\ head lb = Some (reconcilerSetupText qualifier "Guestbook")
    /\ m !! goMarker templates.importMarker = Some li
    /\ (true = true ->
        exists path : string,
          last li = Some (qualifier +:+ " " +:+ dq +:+ path +:+ dq +:+ nl)).
Proof.
  exact (reconciler_setup_qualifier (sampleUpdater true false) guestbook
           eq_refl eq_refl).
Defined.

(** ** What the entries do not depend on *)

(** X6. The setup entry and the scheme entry are the same whatever the
    repository and the layout: only the imports entry reads [Repo] and
    [IsLegacyLayout]. In particular the reconciler setup text of a legacy
    project is that of a nested one. *)
Theorem setup_and_scheme_ignore_layout (f : templates.MainUpdater.t)
    (repo : string) (legacy : bool) :
  exists m m' : machinery.CodeFragmentsMap,
    templates.MainUpdater.GetCodeFragments f = Returns m
    /\ templates.MainUpdater.GetCodeFragments (withRepoLayout repo legacy f)
       = Returns m'
    /\ m' !! goMarker templates.setupMarker
       = m !! goMarker templates.setupMarker
    /\ m' !! goMarker templates.addSchemeMarker
       = m !! goMarker templates.addSchemeMarker.
Proof.
  destruct (GetCodeFragments_returns f) as [m Hm].
  destruct (GetCodeFragments_returns (withRepoLayout repo legacy f))
    as [m' Hm'].
  exists m, m'. split; [exact Hm|]. split; [exact Hm'|].
  destruct (entries_of f m Hm) as (_ & Hs & Hb).
  destruct (entries_of _ m' Hm') as (_ & Hs' & Hb').
  rewrite Hs, Hb, Hs', Hb'. cbn [withRepoLayout templates.MainUpdater.Resource].
  destruct (templates.MainUpdater.Resource f) as [r|]; [|done].
  split; reflexivity.
Qed.

(** X7. The wiring flags act on their own markers only: [WireWebhook]
    changes neither the imports nor the scheme entry, [WireResource] does
    not change the setup entry, [WireController] does not change the
    scheme entry. *)
Theorem wiring_flags_are_independent (f : templates.MainUpdater.t)
    (b : bool) :
  exists m mw mr mc : machinery.CodeFragmentsMap,
    templates.MainUpdater.GetCodeFragments f = Returns m
    /\ templates.MainUpdater.GetCodeFragments
         (withWiring (templates.MainUpdater.WireResource f)
            (templates.MainUpdater.WireController f) b f) = Returns mw
    /\ templates.MainUpdater.GetCodeFragments
         (withWiring b (templates.MainUpdater.WireController f)
            (templates.MainUpdater.WireWebhook f) f) = Returns mr
    /\ templates.MainUpdater.GetCodeFragments
         (withWiring (templates.MainUpdater.WireResource f) b
            (templates.MainUpdater.WireWebhook f) f) = Returns mc
    /\ mw !! goMarker templates.importMarker
       = m !! goMarker templates.importMarker
    /\ mw !! goMarker templates.addSchemeMarker
       = m !! goMarker templates.addSchemeMarker
    /\ mr !! goMarker templates.setupMarker
       = m !! goMarker templates.setupMarker
    /\ mc !! goMarker templates.addSchemeMarker
       = m !! goMarker templates.addSchemeMarker.
Proof.
  destruct (GetCodeFragments_returns f) as [m Hm].
  destruct (GetCodeFragments_returns
              (withWiring (templates.MainUpdater.WireResource f)
                 (templates.MainUpdater.WireController f) b f)) as [mw Hmw].
  destruct (GetCodeFragments_returns
              (withWiring b (templates.MainUpdater.WireController f)
                 (templates.MainUpdater.WireWebhook f) f)) as [mr Hmr].
  destruct (GetCodeFragments_returns
              (withWiring (templates.MainUpdater.WireResource f) b
                 (templates.MainUpdater.WireWebhook f) f)) as [mc Hmc].
  exists m, mw, mr, mc.
  do 4 (split; [assumption|]).
  destruct (entries_of f m Hm) as (Hi & Hs & Hb).
  destruct (entries_of _ mw Hmw) as (Hiw & Hsw & _).
  destruct (entries_of _ mr Hmr) as (_ & _ & Hbr).
  destruct (entries_of _ mc Hmc) as (_ & Hsc & _).
  rewrite Hi, Hs, Hb, Hiw, Hsw, Hbr, Hsc.
  cbn [withWiring templates.MainUpdater.Resource].
  destruct (templates.MainUpdater.Resource f) as [r|]; [|done].
  repeat split; reflexivity.
Qed.

(** ** The entry point template on any path *)

Lemma commentsByExt_cases ext c :
  machinery.commentsByExt ext = Some c -> c = "//" \/ c = "#".
Proof.
  unfold machinery.commentsByExt.
  destruct (String.eqb ext ".go"); [intros [= <-]; by left|].
  destruct (String.eqb ext ".yaml"); [intros [= <-]; by right|].
  destruct (String.eqb ext ".yml"); [intros [= <-]; by right|]. discriminate.
Qed.

(** [Main.SetTemplateDefaults] in one equation: it resolves the path, then
    needs a comment prefix for its extension. *)
Lemma Main_SetTemplateDefaults_eq (f : templates.Main.t) :
  templates.Main.SetTemplateDefaults f
  = match machinery.commentsByExt (filepath.Ext (Main_resolved_path f)) with
    | Some c =>
        Returns (Main_with (Main_resolved_path f)
                   (fmt.Sprintf templates.mainTemplate (sentinels c)) f,
                 None)
    | None =>
        Panics ("unknown file extension: '" +:+
                filepath.Ext (Main_resolved_path f) +:+ "'")
    end.
Proof.
  destruct f as [[p a b] bp d repo lg].
  unfold templates.Main.SetTemplateDefaults, Main_resolved_path, Main_with,
    templates.Main.Path, sentinels.
  cbn [templates.Main.TemplateMixin machinery.Path templates.Main.IsLegacyLayout
       templates.Main.Boilerplate templates.Main.Domain templates.Main.Repo
       machinery.IfExistsAction_].
  destruct (String.eqb p "") eqn:Hp.
  - destruct lg; reflexivity.
  - unfold machinery.NewMarkerFor.
    cbn [templates.Main.set_TemplateMixin templates.Main.TemplateMixin
         machinery.Path].
    destruct (machinery.commentsByExt (filepath.Ext p)); reflexivity.
Qed.

Lemma Main_resolved_path_nonempty f :
  String.eqb (Main_resolved_path f) "" = false.
Proof.
  unfold Main_resolved_path.
  destruct (String.eqb (templates.Main.Path f) "") eqn:Hp; [|exact Hp].
  destruct (templates.Main.IsLegacyLayout f); reflexivity.
Qed.

Lemma Main_resolved_path_with p body f :
  String.eqb p "" = false -> Main_resolved_path (Main_with p body f) = p.
Proof. intros Hp. unfold Main_resolved_path, Main_with. cbn. by rewrite Hp. Qed.

(** X8. [Main.SetTemplateDefaults] returns exactly when the path is empty
    (the default of the layout is a Go file) or ends in [.go], [.yaml] or
    [.yml]; on any other path it panics, as [NewMarkerFor] does. *)
Theorem Main_returns_iff_known_extension (f : templates.Main.t) :
  returns (templates.Main.SetTemplateDefaults f)
  = String.eqb (templates.Main.Path f) ""
    || known_extension (templates.Main.Path f).
Proof.
  rewrite Main_SetTemplateDefaults_eq. unfold Main_resolved_path.
  destruct (String.eqb (templates.Main.Path f) "") eqn:Hp.
  - destruct (templates.Main.IsLegacyLayout f); reflexivity.
  - unfold known_extension, machinery.commentsByExt. cbn [orb].
    destruct (String.eqb (filepath.Ext (templates.Main.Path f)) ".go");
      [reflexivity|].
    destruct (String.eqb (filepath.Ext (templates.Main.Path f)) ".yaml");
      [reflexivity|].
    destruct (String.eqb (filepath.Ext (templates.Main.Path f)) ".yml");
      reflexivity.
Qed.

(** X9. [Main.SetTemplateDefaults] is idempotent: applied to the template
    it returned, it returns that template again. *)
Theorem Main_SetTemplateDefaults_idempotent (f f' : templates.Main.t)
    (e : error) :
  templates.Main.SetTemplateDefaults f = Returns (f', e) ->
  templates.Main.SetTemplateDefaults f' = Returns (f', e).
Proof.
  rewrite Main_SetTemplateDefaults_eq.
  destruct (machinery.commentsByExt (filepath.Ext (Main_resolved_path f)))
    as [c|] eqn:Hc; [|discriminate].
  remember (fmt.Sprintf templates.mainTemplate (sentinels c)) as body
    eqn:Hbody.
  intros H. injection H as <- <-. rewrite Main_SetTemplateDefaults_eq.
  rewrite (Main_resolved_path_with _ body f (Main_resolved_path_nonempty f)).
  rewrite Hc, <- Hbody. unfold Main_with. reflexivity.
Qed.

Lemma Main_SetTemplateDefaults_idempotent_witness :
  templates.Main.SetTemplateDefaults
    (Main_with "cmd/main.go"
       (fmt.Sprintf templates.mainTemplate (sentinels "//"))
       (templates.Main.mk machinery.TemplateMixin_zero "" "example.com"
          "example.com/proj" false))
  = Returns
      (Main_with "cmd/main.go"
         (fmt.Sprintf templates.mainTemplate (sentinels "//"))
         (templates.Main.mk machinery.TemplateMixin_zero "" "example.com"
            "example.com/proj" false),
       None).
Proof.
  exact (Main_SetTemplateDefaults_idempotent
           (templates.Main.mk machinery.TemplateMixin_zero "" "example.com"
              "example.com/proj" false)
           _ None eq_refl).
Defined.

(** X10. Whatever the path, the body [Main.SetTemplateDefaults] builds
    holds the sentinel of each of the three markers of that path exactly
    once, and no other marker; the path is the template's own when it is
    not empty. *)
Theorem Main_sentinels_on_any_path (f f' : templates.Main.t) (e : error) :
  templates.Main.SetTemplateDefaults f = Returns (f', e) ->
  exists mi ms mb : machinery.Marker,
    templates.Main.Path f' = Main_resolved_path f
    /\ machinery.NewMarkerFor (templates.Main.Path f') templates.importMarker
       = Returns mi
    /\ machinery.NewMarkerFor (templates.Main.Path f')
         templates.addSchemeMarker = Returns ms
    /\ machinery.NewMarkerFor (templates.Main.Path f') templates.setupMarker
       = Returns mb
    /\ Forall
         (fun m =>
            gostrings.occurrences (machinery.Marker_String m)
              (templates.Main.TemplateBody f') = 1)
         [mi; ms; mb]
    /\ gostrings.occurrences machinery.prefix (templates.Main.TemplateBody f')
       = 3.
Proof.
  rewrite Main_SetTemplateDefaults_eq.
  destruct (machinery.commentsByExt (filepath.Ext (Main_resolved_path f)))
    as [c|] eqn:Hc; [|discriminate].
  remember (fmt.Sprintf templates.mainTemplate (sentinels c)) as body
    eqn:Hbody.
  intros H. injection H as <- <-.
  exists (machinery.mkMarker c templates.importMarker),
    (machinery.mkMarker c templates.addSchemeMarker),
    (machinery.mkMarker c templates.setupMarker).
  unfold Main_with, templates.Main.Path, templates.Main.TemplateBody.
  cbn [templates.Main.TemplateMixin machinery.Path machinery.TemplateBody].
  unfold machinery.NewMarkerFor. rewrite Hc.
  do 4 (split; [reflexivity|]). subst body.
  destruct (commentsByExt_cases _ _ Hc) as [-> | ->];
    (split; [repeat constructor; vm_compute; reflexivity
            |vm_compute; reflexivity]).
Qed.

Lemma Main_sentinels_on_any_path_witness :
  exists mi ms mb : machinery.Marker,
    templates.Main.Path
      (Main_with "hack/manager.yaml"
         (fmt.Sprintf templates.mainTemplate (sentinels "#"))
         (templates.Main.mk machinery.TemplateMixin_zero "" "example.com"
            "example.com/proj" true))
    = Main_resolved_path
        (templates.Main.mk
           (machinery.mkTemplateMixin "hack/manager.yaml" machinery.SkipFile
              "")
           "" "example.com" "example.com/proj" true)
    /\ machinery.NewMarkerFor "hack/manager.yaml" templates.importMarker
       = Returns mi
    /\ machinery.NewMarkerFor "hack/manager.yaml" templates.addSchemeMarker
       = Returns ms
    /\ machinery.NewMarkerFor "hack/manager.yaml" templates.setupMarker
       = Returns mb
    /\ Forall
         (fun m =>
            gostrings.occurrences (machinery.Marker_String m)
              (fmt.Sprintf templates.mainTemplate (sentinels "#")) = 1)
         [mi; ms; mb]
    /\ gostrings.occurrences machinery.prefix
         (fmt.Sprintf templates.mainTemplate (sentinels "#"))
       = 3.
Proof.
  exact (Main_sentinels_on_any_path
           (templates.Main.mk
              (machinery.mkTemplateMixin "hack/manager.yaml"
                 machinery.SkipFile "")
              "" "example.com" "example.com/proj" true)
           (Main_with "hack/manager.yaml"
              (fmt.Sprintf templates.mainTemplate (sentinels "#"))
              (templates.Main.mk machinery.TemplateMixin_zero "" "example.com"
                 "example.com/proj" true))
           None eq_refl).
Defined.

(** X11. [Main.SetTemplateDefaults] changes the path and the body only: the
    nil error is returned and the existence policy, boilerplate, domain,
    repository and layout flag are those of the receiver. A path that is
    not empty is kept, in both layouts. *)
Theorem Main_changes_path_and_body_only (f f' : templates.Main.t)
    (e : error) :
  templates.Main.SetTemplateDefaults f = Returns (f', e) ->
  e = None
  /\ machinery.IfExistsAction_ (templates.Main.TemplateMixin f')
     = machinery.IfExistsAction_ (templates.Main.TemplateMixin f)
  /\ templates.Main.Boilerplate f' = templates.Main.Boilerplate f
  /\ templates.Main.Domain f' = templates.Main.Domain f
  /\ templates.Main.Repo f' = templates.Main.Repo f
  /\ templates.Main.IsLegacyLayout f' = templates.Main.IsLegacyLayout f
  /\ (templates.Main.Path f <> "" ->
      templates.Main.Path f' = templates.Main.Path f).
Proof.
  rewrite Main_SetTemplateDefaults_eq.
  destruct (machinery.commentsByExt (filepath.Ext (Main_resolved_path f)))
    as [c|] eqn:Hc; [|discriminate].
  remember (fmt.Sprintf templates.mainTemplate (sentinels c)) as body
    eqn:Hbody.
  intros H. injection H as <- <-. do 6 (split; [reflexivity|]).
  intros Hne. unfold Main_with, templates.Main.Path at 1.
  cbn [templates.Main.TemplateMixin machinery.Path].
  unfold Main_resolved_path.
  destruct (String.eqb_spec (templates.Main.Path f) ""); [done|reflexivity].
Qed.

Lemma Main_changes_path_and_body_only_witness :
  (None : error) = None
  /\ machinery.IfExistsAction_
       (templates.Main.TemplateMixin
          (Main_with "main.go"
             (fmt.Sprintf templates.mainTemplate (sentinels "//"))
             (templates.Main.mk machinery.TemplateMixin_zero "" "example.com"
                "example.com/proj" true)))
     = machinery.SkipFile
  /\ templates.Main.Boilerplate
       (Main_with "main.go"
          (fmt.Sprintf templates.mainTemplate (sentinels "//"))
          (templates.Main.mk machinery.TemplateMixin_zero "" "example.com"
             "example.com/proj" true)) = ""
  /\ templates.Main.Domain
       (Main_with "main.go"
          (fmt.Sprintf templates.mainTemplate (sentinels "//"))
          (templates.Main.mk machinery.TemplateMixin_zero "" "example.com"
             "example.com/proj" true)) = "example.com"
  /\ templates.Main.Repo
       (Main_with "main.go"
          (fmt.Sprintf templates.mainTemplate (sentinels "//"))
          (templates.Main.mk machinery.TemplateMixin_zero "" "example.com"
             "example.com/proj" true)) = "example.com/proj"
  /\ templates.Main.IsLegacyLayout
       (Main_with "main.go"
          (fmt.Sprintf templates.mainTemplate (sentinels "//"))
          (templates.Main.mk machinery.TemplateMixin_zero "" "example.com"
             "example.com/proj" true)) = true
  /\ ("" <> "" ->
      templates.Main.Path
        (Main_with "main.go"
           (fmt.Sprintf templates.mainTemplate (sentinels "//"))
           (templates.Main.mk machinery.TemplateMixin_zero "" "example.com"
              "example.com/proj" true)) = "").
Proof.
  exact (Main_changes_path_and_body_only
           (templates.Main.mk machinery.TemplateMixin_zero "" "example.com"
              "example.com/proj" true)
           (Main_with "main.go"
              (fmt.Sprintf templates.mainTemplate (sentinels "//"))
              (templates.Main.mk machinery.TemplateMixin_zero "" "example.com"
                 "example.com/proj" true))
           None eq_refl).
Defined.

(** ** The schema template on any path *)

(** [Types.SetTemplateDefaults] in one equation, for a template with its
    resource. *)
Lemma Types_SetTemplateDefaults_eq (f : api.Types.t) (r : resource.Resource) :
  api.Types.Resource f = Some r ->
  api.Types.SetTemplateDefaults f
  = Returns
      (Types_with
         (gostrings.Replace (resource.Replacer r) (Types_pattern f r)) f,
       None,
       [gostrings.Replace (resource.Replacer r) (Types_pattern f r)]).
Proof.
  destruct f as [[p a b] mg bp res force]. cbn. intros ->.
  unfold api.Types.SetTemplateDefaults, Types_pattern, Types_with.
  cbn -[gostrings.Replace resource.Replacer api.typesTemplate filepath.Join].
  destruct (String.eqb p "");
    cbn -[gostrings.Replace resource.Replacer api.typesTemplate filepath.Join];
    [destruct mg;
     cbn -[gostrings.Replace resource.Replacer api.typesTemplate filepath.Join];
     [destruct (String.eqb (resource.Group r) "");
      cbn -[gostrings.Replace resource.Replacer api.typesTemplate
            filepath.Join]|]|];
    destruct force; reflexivity.
Qed.

(** X12. [Types.SetTemplateDefaults] returns exactly when the template has
    a resource: with a nil [Resource] it panics on every path and for every
    flag, with a resource it never does. *)
Theorem Types_returns_iff_resource (f : api.Types.t) :
  returns (api.Types.SetTemplateDefaults f)
  = match api.Types.Resource f with Some _ => true | None => false end.
Proof.
  destruct (api.Types.Resource f) as [r|] eqn:Hr.
  - rewrite (Types_SetTemplateDefaults_eq f r Hr). reflexivity.
  - apply Types_SetTemplateDefaults_nil, Hr.
Qed.

(** The replacer of a resource leaves a text without a percent sign as it
    is: every placeholder starts with one. *)
Lemma Replace_percent_free (r : resource.Resource) (s : string) :
  percent_free s = true -> gostrings.Replace (resource.Replacer r) s = s.
Proof.
  unfold gostrings.Replace. induction s as [|c s IH]; [reflexivity|].
  cbn [percent_free]. intros [Hc Hs]%andb_true_iff.
  apply negb_true_iff in Hc.
  cbn [gostrings.replace_from gostrings.lookup resource.Replacer
       gostrings.HasPrefix].
  rewrite Hc. cbn [gostrings.lookup]. f_equal. apply IH, Hs.
Qed.

(** X13. A path given to a [Types] template that is not empty and holds no
    percent sign is kept as it is (and is the line printed). *)
Theorem Types_literal_path_kept (f : api.Types.t) (r : resource.Resource) :
  api.Types.Resource f = Some r ->
  api.Types.Path f <> "" ->
  percent_free (api.Types.Path f) = true ->
  exists f' : api.Types.t,
    api.Types.SetTemplateDefaults f = Returns (f', None, [api.Types.Path f])
    /\ api.Types.Path f' = api.Types.Path f.
Proof.
  intros Hr Hne Hfree. rewrite (Types_SetTemplateDefaults_eq f r Hr).
  unfold Types_pattern.
  destruct (String.eqb_spec (api.Types.Path f) ""); [done|].
  rewrite (Replace_percent_free r _ Hfree).
  eexists. split; reflexivity.
Qed.

Lemma Types_literal_path_kept_witness :
  exists f' : api.Types.t,
    api.Types.SetTemplateDefaults
      (api.Types.mk
         (machinery.mkTemplateMixin "apis/v1/guestbook_types.go"
            machinery.SkipFile "")
         true "" (Some guestbook) false)
    = Returns (f', None, ["apis/v1/guestbook_types.go"])
    /\ api.Types.Path f' = "apis/v1/guestbook_types.go".
Proof.
  exact (Types_literal_path_kept
           (api.Types.mk
              (machinery.mkTemplateMixin "apis/v1/guestbook_types.go"
                 machinery.SkipFile "")
              true "" (Some guestbook) false)
           guestbook eq_refl ltac:(discriminate) eq_refl).
Defined.

(** X14. [Types.SetTemplateDefaults] is idempotent on a template whose
    resolved path is not empty and holds no percent sign: applied to the
    template it returned, it returns it again and prints the same line. *)
Theorem Types_SetTemplateDefaults_idempotent (f f' : api.Types.t)
    (e : error) (out : list string) :
  api.Types.SetTemplateDefaults f = Returns (f', e, out) ->
  api.Types.Path f' <> "" ->
  percent_free (api.Types.Path f') = true ->
  api.Types.SetTemplateDefaults f' = Returns (f', e, out).
Proof.
  intros H Hne Hfree.
  destruct (api.Types.Resource f) as [r|] eqn:Hr.
  2:{ pose proof (Types_SetTemplateDefaults_nil f Hr) as Hp.
      rewrite H in Hp. discriminate. }
  rewrite (Types_SetTemplateDefaults_eq f r Hr) in H.
  remember (gostrings.Replace (resource.Replacer r) (Types_pattern f r))
    as p eqn:Hp.
  injection H as <- <- <-.
  assert (Hpath : api.Types.Path (Types_with p f) = p) by reflexivity.
  rewrite Hpath in Hne, Hfree.
  rewrite (Types_SetTemplateDefaults_eq (Types_with p f) r Hr).
  assert (Hpat : Types_pattern (Types_with p f) r = p).
  { unfold Types_pattern. rewrite Hpath.
    destruct (String.eqb_spec p ""); [done|reflexivity]. }
  rewrite Hpat, (Replace_percent_free r p Hfree).
  unfold Types_with. cbn [api.Types.Force api.Types.MultiGroup
    api.Types.Boilerplate api.Types.Resource]. reflexivity.
Qed.

Lemma Types_SetTemplateDefaults_idempotent_witness :
  api.Types.SetTemplateDefaults
    (Types_with "api/web-app/v1/guestbook_types.go"
       (api.Types.mk machinery.TemplateMixin_zero true "" (Some guestbook)
          false))
  = Returns
      (Types_with "api/web-app/v1/guestbook_types.go"
         (api.Types.mk machinery.TemplateMixin_zero true "" (Some guestbook)
            false),
       None, ["api/web-app/v1/guestbook_types.go"]).
Proof.
  exact (Types_SetTemplateDefaults_idempotent
           (api.Types.mk machinery.TemplateMixin_zero true ""
              (Some guestbook) false)
           _ None _ eq_refl ltac:(discriminate) eq_refl).
Defined.

(** Where a field of the resource holds a placeholder the second call
    resolves it: the method is not idempotent there. *)
Example Types_placeholder_in_version :
  let f :=
    api.Types.mk machinery.TemplateMixin_zero false ""
      (Some (resource.mkResource "web-app" "example.com" "%[kind]"
               "Guestbook" "guestbooks" ""))
      false in
  api.Types.SetTemplateDefaults f
  = Returns (Types_with "api/%[kind]/guestbook_types.go" f, None,
             ["api/%[kind]/guestbook_types.go"])
  /\ api.Types.SetTemplateDefaults
       (Types_with "api/%[kind]/guestbook_types.go" f)
     = Returns (Types_with "api/guestbook/guestbook_types.go" f, None,
                ["api/guestbook/guestbook_types.go"]).
Proof. split; reflexivity. Qed.

(** ** The ignore file template *)

(** [filepath.Clean] never returns the empty path. *)
Lemma Clean_nonempty (path : string) :
  String.eqb (filepath.Clean path) "" = false.
Proof.
  unfold filepath.Clean.
  destruct (String.eqb path ""); [reflexivity|]. cbv zeta.
  destruct (gostrings.HasPrefix path "/"); [reflexivity|].
  destruct (String.eqb (gostrings.Join _ "/") "") eqn:E;
    [reflexivity|exact E].
Qed.

Lemma Join_nonempty (e : string) (rest : list string) :
  String.eqb e "" = false ->
  String.eqb (filepath.Join (e :: rest)) "" = false.
Proof.
  intros He. cbn [filepath.Join]. rewrite He. apply Clean_nonempty.
Qed.

(** The elements of a path that starts with an element without separator. *)
Lemma elements_app_sep (name t : string) :
  no_separator name = true ->
  filepath.elements (name +:+ String "/" t) = name :: filepath.elements t.
Proof.
  induction name as [|c name IH]; [reflexivity|].
  cbn [no_separator]. intros [Hc Hn]%andb_true_iff.
  apply negb_true_iff in Hc.
  change (String c name +:+ String "/" t)
    with (String c (name +:+ String "/" t)).
  cbn [filepath.elements]. rewrite Hc, (IH Hn). reflexivity.
Qed.

(** The default path of the ignore file for a plain project name. *)
Lemma Join_plain_name (name : string) :
  plain_name name = true ->
  filepath.Join ["config"; "charts"; name; ".helmignore"]
  = "config/charts/" +:+ name +:+ "/.helmignore".
Proof.
  unfold plain_name.
  intros [[[Hsep He]%andb_true_iff Hd]%andb_true_iff Hdd]%andb_true_iff.
  apply negb_true_iff in He, Hd, Hdd.
  change (filepath.Join ["config"; "charts"; name; ".helmignore"])
    with (filepath.Clean
            ("config" +:+ String "/"
               ("charts" +:+ String "/" (name +:+ String "/" ".helmignore")))).
  unfold filepath.Clean.
  change (String.eqb ("config" +:+ _) "") with false.
  change (gostrings.HasPrefix ("config" +:+ _) "/") with false.
  cbv iota zeta.
  rewrite (elements_app_sep "config") by reflexivity.
  rewrite (elements_app_sep "charts") by reflexivity.
  rewrite (elements_app_sep name) by exact Hsep.
  change (filepath.elements ".helmignore") with [".helmignore"].
  cbn [fold_left].
  change (filepath.clean_step false
            (filepath.clean_step false [] "config") "charts")
    with ["charts"; "config"].
  assert (Hstep : filepath.clean_step false ["charts"; "config"] name
                  = [name; "charts"; "config"]).
  { unfold filepath.clean_step. rewrite He, Hd, Hdd. reflexivity. }
  rewrite Hstep. reflexivity.
Qed.

(** [HelmIgnore.SetTemplateDefaults] in one equation. *)
Lemma HelmIgnore_SetTemplateDefaults_eq (h : charts.HelmIgnore.t) :
  charts.HelmIgnore.SetTemplateDefaults h
  = (HelmIgnore_with
       (if String.eqb (charts.HelmIgnore.Path h) "" then
          filepath.Join
            ["config"; "charts"; charts.HelmIgnore.ProjectName h;
             ".helmignore"]
        else charts.HelmIgnore.Path h) h,
     None).
Proof.
  destruct h as [[p a b] pn force].
  unfold charts.HelmIgnore.SetTemplateDefaults, HelmIgnore_with,
    charts.HelmIgnore.Path.
  cbn -[filepath.Join charts.helmIgnoreTemplate].
  destruct (String.eqb p ""), force; reflexivity.
Qed.

(** X15. For a [HelmIgnore] template with an empty path and a project name
    that is one proper path element (no separator, not empty, not [.] or
    [..]), [SetTemplateDefaults] resolves the path to
    [config/charts/<ProjectName>/.helmignore]. *)
Theorem HelmIgnore_default_path (h : charts.HelmIgnore.t) :
  charts.HelmIgnore.Path h = "" ->
  plain_name (charts.HelmIgnore.ProjectName h) = true ->
  charts.HelmIgnore.Path (charts.HelmIgnore.SetTemplateDefaults h).1
  = "config/charts/" +:+ charts.HelmIgnore.ProjectName h +:+ "/.helmignore".
Proof.
  intros Hp Hn. rewrite HelmIgnore_SetTemplateDefaults_eq, Hp.
  change (String.eqb "" "") with true. cbv iota.
  unfold HelmIgnore_with, charts.HelmIgnore.Path.
  cbn [fst charts.HelmIgnore.TemplateMixin machinery.Path].
  apply Join_plain_name, Hn.
Qed.

Lemma HelmIgnore_default_path_witness :
  charts.HelmIgnore.Path
    (charts.HelmIgnore.SetTemplateDefaults
       (charts.HelmIgnore.mk machinery.TemplateMixin_zero "proj" false)).1
  = "config/charts/proj/.helmignore".
Proof.
  exact (HelmIgnore_default_path
           (charts.HelmIgnore.mk machinery.TemplateMixin_zero "proj" false)
           eq_refl eq_refl).
Defined.

(** Project names that are no proper path element: the empty name and [.]
    leave no directory of their own, [..] leaves the charts directory, a
    name with separators spans several directories. *)
Example HelmIgnore_odd_project_names :
  map (fun name =>
         charts.HelmIgnore.Path
           (charts.HelmIgnore.SetTemplateDefaults
              (charts.HelmIgnore.mk machinery.TemplateMixin_zero name
                 false)).1)
    [""; "."; ".."; "a/b"; "/abs"]
  = [ "config/charts/.helmignore"; "config/charts/.helmignore";
      "config/.helmignore"; "config/charts/a/b/.helmignore";
      "config/charts/abs/.helmignore" ].
Proof. reflexivity. Qed.

(** X16. [HelmIgnore.SetTemplateDefaults] is idempotent, for every path,
    project name and flag: applied to the template it returned, it returns
    the same template and error. *)
Theorem HelmIgnore_SetTemplateDefaults_idempotent (h : charts.HelmIgnore.t) :
  charts.HelmIgnore.SetTemplateDefaults
    (charts.HelmIgnore.SetTemplateDefaults h).1
  = charts.HelmIgnore.SetTemplateDefaults h.
Proof.
  rewrite (HelmIgnore_SetTemplateDefaults_eq h). cbn [fst].
  set (p := if String.eqb (charts.HelmIgnore.Path h) "" then _ else _).
  assert (Hp : String.eqb p "" = false).
  { subst p. destruct (String.eqb (charts.HelmIgnore.Path h) "") eqn:E;
      [apply Join_nonempty; reflexivity|exact E]. }
  rewrite HelmIgnore_SetTemplateDefaults_eq.
  change (charts.HelmIgnore.Path (HelmIgnore_with p h)) with p.
  rewrite Hp. reflexivity.
Qed.

(** ** No template is left without a path *)

(** X17. After [SetTemplateDefaults] the path of a [Main] template and of a
    [HelmIgnore] template is never empty, and neither is that of a [Types]
    template that started with an empty path. *)
Theorem defaults_leave_a_path :
  (forall (f f' : templates.Main.t) (e : error),
      templates.Main.SetTemplateDefaults f = Returns (f', e) ->
      templates.Main.Path f' <> "")
  /\ (forall h : charts.HelmIgnore.t,
         charts.HelmIgnore.Path (charts.HelmIgnore.SetTemplateDefaults h).1
         <> "")
  /\ (forall (f f' : api.Types.t) (e : error) (out : list string),
         api.Types.Path f = "" ->
         api.Types.SetTemplateDefaults f = Returns (f', e, out) ->
         api.Types.Path f' <> "").
Proof.
  split; [|split].
  - intros f f' e. rewrite Main_SetTemplateDefaults_eq.
    destruct (machinery.commentsByExt _) as [c|]; [|discriminate].
    remember (fmt.Sprintf templates.mainTemplate (sentinels c)) as body.
    intros H. injection H as <- <-.
    change (templates.Main.Path (Main_with (Main_resolved_path f) body f))
      with (Main_resolved_path f).
    intros Heq. pose proof (Main_resolved_path_nonempty f) as Hne.
    rewrite Heq in Hne. discriminate.
  - intros h. rewrite HelmIgnore_SetTemplateDefaults_eq. cbn [fst].
    set (p := if String.eqb (charts.HelmIgnore.Path h) "" then _ else _).
    change (charts.HelmIgnore.Path (HelmIgnore_with p h)) with p.
    assert (Hp : String.eqb p "" = false).
    { subst p. destruct (String.eqb (charts.HelmIgnore.Path h) "") eqn:E;
        [apply Join_nonempty; reflexivity|exact E]. }
    intros Heq. rewrite Heq in Hp. discriminate.
  - intros f f' e out Hp H.
    destruct (api.Types.Resource f) as [r|] eqn:Hr.
    2:{ pose proof (Types_SetTemplateDefaults_nil f Hr) as Hn.
        rewrite H in Hn. discriminate. }
    rewrite (Types_SetTemplateDefaults_eq f r Hr) in H.
    remember (gostrings.Replace (resource.Replacer r) (Types_pattern f r))
      as p eqn:Hpat.
    injection H as <- _ _.
    change (api.Types.Path (Types_with p f)) with p. subst p.
    unfold Types_pattern. rewrite Hp.
    change (String.eqb "" "") with true. cbv iota.
    destruct (api.Types.MultiGroup f
              && negb (String.eqb (resource.Group r) ""));
      [rewrite Replace_group_version_kind|rewrite Replace_version_kind];
      discriminate.
Qed.

(** A [Types] template given a path of placeholders can end with an empty
    path. *)
Example Types_empty_resolved_path :
  api.Types.SetTemplateDefaults
    (api.Types.mk
       (machinery.mkTemplateMixin "%[group]" machinery.SkipFile "")
       false ""
       (Some (resource.mkResource "" "example.com" "v1" "Guestbook"
                "guestbooks" ""))
       false)
  = Returns
      (Types_with ""
         (api.Types.mk
            (machinery.mkTemplateMixin "%[group]" machinery.SkipFile "")
            false ""
            (Some (resource.mkResource "" "example.com" "v1" "Guestbook"
                     "guestbooks" ""))
            false),
       None, [""]).
Proof. reflexivity. Qed.

(** ** The webhook scaffolder: the calls of a run *)

(** X19. A run prints its message, calls [UpdateResource] once on the
    scaffolder's resource and, only when that returned nil, calls
    [Execute] once, with four builders: [Helpers] forced and
    webhook-enabled whatever the force flag, then the cert-manager check,
    the service and the certificate carrying the flag. *)
Theorem Scaffold_call_order {Config Filesystem : Type}
    (UpdateResource : Config -> resource.Resource -> Config * error)
    (Execute : Filesystem -> Config -> resource.Resource ->
               list scaffolds.Builder ->
               Filesystem * Config * resource.Resource * error)
    (s : scaffolds.webhookScaffolder) :
  let '(s', trace, ret) := scaffolds.Scaffold UpdateResource Execute s in
  trace
  = [ scaffolds.Println "Writing helm manifests for you to edit...";
      scaffolds.UpdateResourceCall (scaffolds.resource_ s) ]
    ++ match (UpdateResource (scaffolds.config s) (scaffolds.resource_ s)).2
       with
       | None =>
           [ scaffolds.ExecuteCall
               [ scaffolds.Helpers true true;
                 scaffolds.WebhookCertManagerCheck (scaffolds.force s);
                 scaffolds.WebhookService (scaffolds.force s);
                 scaffolds.WebhookCertificate (scaffolds.force s) ] ]
       | Some _ => []
       end.
Proof.
  unfold scaffolds.Scaffold.
  destruct (UpdateResource (scaffolds.config s) (scaffolds.resource_ s))
    as [config' [e|]]; cbn; [reflexivity|].
  destruct (Execute (scaffolds.fs s) config' (scaffolds.resource_ s) _)
    as [[[fs' config''] resource'] [e|]]; reflexivity.
Qed.
